(** * campus-id-pro: the spreadsheet importer and exporter

    A shallow embedding of
      - [src/components/admin/ExcelImport.tsx]
        ([handleFileSelect], [validateSRN], [importStudents]),
      - the [exportToExcel] handlers of the school and admin dashboards,
      - the [students] and [import_logs] tables of the migrations,
    and the properties the specification states about them.

    JavaScript values are modelled as the importer sees them: a cell read
    by [XLSX.utils.sheet_to_json] is a string, a number or a boolean; a row
    is an object from column name to cell; the Supabase client is a store
    that answers one call after the other. *)

From Stdlib Require Import ZArith Ascii String List Bool Lia Sorted.
From stdpp Require Import base option list strings pretty gmap fin_maps.

Open Scope string_scope.
Open Scope list_scope.

(** ** JavaScript values of spreadsheet cells *)

(** A JavaScript number, as far as the importer can tell numbers apart: it
    tests a cell for truth and turns it into text, nothing else. [is_falsy]
    holds of 0, -0 and NaN; [as_text] is [String(n)], the shortest numeral
    that reads back as [n] (so 10.5 for a fraction and 1e+21 from ten to
    the twenty-first on). *)
Record number : Type := {
  is_falsy : bool;
  as_text : string
}.

(** An integer that [String(n)] writes as its decimal numeral: below ten to
    the twenty-first in absolute value. *)
Definition integer (n : Z) : number :=
  {| is_falsy := Z.eqb n 0; as_text := pretty n |}.

Inductive cell : Type :=
  | CStr (s : string)
  | CNum (n : number)
  | CBool (b : bool).

(** [row[k]] is [undefined] when the key is absent: [option cell]. *)
Abbreviation row := (gmap string cell).

(** JavaScript truthiness, as used by [!row[k]]. *)
Definition truthy (v : option cell) : bool :=
  match v with
  | None => false
  | Some (CStr s) => negb (String.eqb s "")
  | Some (CNum n) => negb (is_falsy n)
  | Some (CBool b) => b
  end.

(** [String(v)], also what a template literal and [.toString()] give. *)
Definition js_string (v : cell) : string :=
  match v with
  | CStr s => s
  | CNum n => as_text n
  | CBool true => "true"
  | CBool false => "false"
  end.

(** [String.prototype.trim] removes the white space and the line
    terminators of ECMAScript from both ends. A text is kept as its UTF-8
    bytes, so a code point to remove is one byte (U+0009 to U+000D and
    U+0020), two bytes (U+00A0) or three bytes (U+1680, U+2000 to U+200A,
    U+2028, U+2029, U+202F, U+205F, U+3000 and U+FEFF). *)
Definition space2 (a b : ascii) : bool :=
  (nat_of_ascii a =? 194)%nat && (nat_of_ascii b =? 160)%nat.

Definition space3 (a b c : ascii) : bool :=
  let x := nat_of_ascii a in
  let y := nat_of_ascii b in
  let z := nat_of_ascii c in
  ((x =? 225) && (y =? 154) && (z =? 128))%nat
  || ((x =? 226) && (y =? 128)
      && (((128 <=? z) && (z <=? 138)) || (z =? 168) || (z =? 169)
          || (z =? 175)))%nat
  || ((x =? 226) && (y =? 129) && (z =? 159))%nat
  || ((x =? 227) && (y =? 128) && (z =? 128))%nat
  || ((x =? 239) && (y =? 187) && (z =? 191))%nat.

(** The text without the white space it starts with; [sp2] and [sp3] tell
    the code points of two and of three bytes. *)
Fixpoint drop_spaces (sp2 : ascii → ascii → bool)
    (sp3 : ascii → ascii → ascii → bool) (s : string) : string :=
  match s with
  | String a s1 =>
      if Ascii.is_space a then drop_spaces sp2 sp3 s1
      else match s1 with
           | String b s2 =>
               if sp2 a b then drop_spaces sp2 sp3 s2
               else match s2 with
                    | String c s3 =>
                        if sp3 a b c then drop_spaces sp2 sp3 s3 else s
                    | EmptyString => s
                    end
           | EmptyString => s
           end
  | EmptyString => EmptyString
  end.

Definition trim_start (s : string) : string := drop_spaces space2 space3 s.

(** The end is trimmed on the reversed text, where the bytes of a code
    point come last byte first. *)
Definition trim_end (s : string) : string :=
  String.rev (drop_spaces (λ a b, space2 b a) (λ a b c, space3 c b a)
                (String.rev s)).

Definition trim (s : string) : string := trim_end (trim_start s).

(** [xs.join(sep)] *)
Fixpoint join (sep : string) (xs : list string) : string :=
  match xs with
  | [] => ""
  | [x] => x
  | x :: rest => x +:+ sep +:+ join sep rest
  end.

Definition newline : string := String "010"%char EmptyString.

(** What the browser's [Date] does is left to the runtime: [dateOfBirth v]
    is [new Date(v)] followed by [toISOString().split('T')[0]], [None] when
    [getTime()] is [NaN]; [toLocaleDateString v] is
    [new Date(v).toLocaleDateString()]. *)
Class JsDate := {
  dateOfBirth : cell → option string;
  toLocaleDateString : option string → string
}.

(** ** Worksheets and workbooks (SheetJS) *)

(** A worksheet as [sheet_to_json] and [json_to_sheet] see it: the cells of
    the first row are the column keys ([sheet_to_json] renames a repeated
    header cell, so the keys of a sheet it reads are distinct), the other
    rows hold a cell or a blank per column. *)
Record worksheet : Type := {
  headers : list string;
  body : list (list (option cell))
}.

(** A workbook: [SheetNames] with [Sheets], in order. *)
Definition workbook : Type := list (string * worksheet).

(** One data row of [sheet_to_json]: a blank cell gives no key. *)
Fixpoint row_pairs (hdr : list string) (cells : list (option cell))
  : list (string * cell) :=
  match hdr, cells with
  | h :: hdr', Some v :: cells' => (h, v) :: row_pairs hdr' cells'
  | _ :: hdr', None :: cells' => row_pairs hdr' cells'
  | _, _ => []
  end.

(** [XLSX.utils.sheet_to_json(worksheet)] with the default options: one
    object per data row, rows without any cell are skipped. *)
Definition sheet_to_json (ws : option worksheet) : list row :=
  match ws with
  | None => []
  | Some ws =>
      omap (λ cells,
              match row_pairs (headers ws) cells with
              | [] => None
              | kvs => Some (list_to_map kvs : row)
              end)
           (body ws)
  end.

(** [XLSX.utils.json_to_sheet(js)]: the header is made of the keys of the
    objects in the order they are first met, so [js = []] gives no header
    cell at all. A key whose value is [undefined] gives a blank cell. *)
Definition record_obj : Type := list (string * option cell).

Fixpoint add_keys (hdr : list string) (ks : list string) : list string :=
  match ks with
  | [] => hdr
  | k :: ks' =>
      if bool_decide (k ∈ hdr) then add_keys hdr ks'
      else add_keys (hdr ++ [k]) ks'
  end.

Definition sheet_header (js : list record_obj) : list string :=
  fold_left (λ hdr o, add_keys hdr (map fst o)) js [].

Definition obj_get (o : record_obj) (k : string) : option cell :=
  match list_find (λ kv, kv.1 = k) o with
  | Some (_, (_, v)) => v
  | None => None
  end.

Definition json_to_sheet (js : list record_obj) : worksheet :=
  let hdr := sheet_header js in
  {| headers := hdr;
     body := map (λ o, map (obj_get o) hdr) js |}.

(** [book_new] then [book_append_sheet(wb, ws, name)] *)
Definition book_new : workbook := [].
Definition book_append_sheet (wb : workbook) (ws : worksheet) (name : string)
  : workbook := wb ++ [(name, ws)].

(** ** The backing store (Supabase) *)

(** A row of [public.students]. *)
Record student : Type := {
  school_id : string;
  srn_no : string;
  student_name : string;
  class : string;
  section : string;
  date_of_birth : string;
  photo_url : option string;
  registration_date : option string
}.

(** A row of [public.import_logs]; [created_at] is the column default. *)
Record import_log : Type := {
  user_id : string;
  filename : string;
  total_records : nat;
  successful_records : nat;
  failed_records : nat;
  log_errors : option string;
  created_at : string
}.

(** How the backend treats one remote call: it serves it, answers with an
    [error] object (row level security, network, a constraint of its own),
    or the client call throws. *)
Inductive reply : Type :=
  | Served
  | Refused (message : string)
  | Thrown (message : string).

(** The state behind the Supabase client: the two tables, the signed-in
    user of [auth.getUser()], the clock, and the replies to the calls to
    come (every call after the last listed one is served). *)
Record backend : Type := {
  students : list student;
  import_logs : list import_log;
  user : option string;
  clock : string;
  replies : list reply
}.

Definition set_students (l : list student) (b : backend) : backend :=
  {| students := l; import_logs := import_logs b; user := user b;
     clock := clock b; replies := replies b |}.

Definition set_import_logs (l : list import_log) (b : backend) : backend :=
  {| students := students b; import_logs := l; user := user b;
     clock := clock b; replies := replies b |}.

Definition set_replies (l : list reply) (b : backend) : backend :=
  {| students := students b; import_logs := import_logs b; user := user b;
     clock := clock b; replies := l |}.

(** *** Awaited calls: state passing with exceptions *)

Inductive result (A : Type) : Type :=
  | Value (a : A)
  | Exception (message : string).
Arguments Value {A} a.
Arguments Exception {A} message.

Definition io (A : Type) : Type := backend → result A * backend.

Definition ret {A} (a : A) : io A := λ b, (Value a, b).
Definition throw {A} (message : string) : io A := λ b, (Exception message, b).

Definition bind {A B} (m : io A) (k : A → io B) : io B :=
  λ b, match m b with
       | (Value a, b') => k a b'
       | (Exception e, b') => (Exception e, b')
       end.

(** [try { m } catch (error) { handler(error.message) }]: the handler runs
    in the state the exception left. *)
Definition try_catch {A} (m : io A) (handler : string → io A) : io A :=
  λ b, match m b with
       | (Value a, b') => (Value a, b')
       | (Exception e, b') => handler e b'
       end.

Notation "'let*' x ':=' m 'in' k" := (bind m (λ x, k))
  (at level 10, x name, m at level 100, k at level 200, only parsing).

(** The [{ data, error }] object a Supabase call resolves to. *)
Inductive response (A : Type) : Type :=
  | Data (data : A)
  | Error (message : string).
Arguments Data {A} data.
Arguments Error {A} message.

(** The next reply of the backend. *)
Definition remote : io reply :=
  λ b, match replies b with
       | [] => (Value Served, b)
       | r :: rest => (Value r, set_replies rest b)
       end.

(** One awaited call: what it does when served, an [error] or an
    exception otherwise. *)
Definition await {A} (served : io (response A)) : io (response A) :=
  let* r := remote in
  match r with
  | Served => served
  | Refused message => ret (Error message)
  | Thrown message => throw message
  end.

(** [.maybeSingle()]: no row is [null], one row is that row, more rows are
    an error. *)
Definition maybeSingle {A} (rows : list A) : response (option A) :=
  match rows with
  | [] => Data None
  | [r] => Data (Some r)
  | _ => Error "JSON object requested, multiple (or no) rows returned"
  end.

(** [from("students").select("id").eq("srn_no", srnNo)
      .eq("school_id", schoolId).maybeSingle()] *)
Definition select_student (srnNo schoolId : string)
  : io (response (option student)) :=
  await (λ b,
    (Value (maybeSingle
              (filter (λ s, srn_no s = srnNo ∧ school_id s = schoolId)
                      (students b))), b)).

(** The table constraint [UNIQUE(school_id, srn_no)] of [public.students]. *)
Definition unique_violation : string :=
  "duplicate key value violates unique constraint students_school_id_srn_no_key".

Definition key_taken (s : student) (l : list student) : bool :=
  bool_decide (Exists (λ s', school_id s' = school_id s ∧ srn_no s' = srn_no s) l).

(** [from("students").insert(s)] *)
Definition insert_student (s : student) : io (response unit) :=
  await (λ b,
    if key_taken s (students b)
    then (Value (Error unique_violation), b)
    else (Value (Data ()), set_students (students b ++ [s]) b)).

(** [from("import_logs").insert(entry)] *)
Definition insert_import_log (entry : string → import_log) : io (response unit) :=
  await (λ b,
    (Value (Data ()), set_import_logs (import_logs b ++ [entry (clock b)]) b)).

(** [auth.getUser()], destructured to [user]. *)
Definition getUser : io (option string) :=
  let* r := remote in
  match r with
  | Served => λ b, (Value (user b), b)
  | Refused _ => ret None
  | Thrown message => throw message
  end.

(** [new Date().toISOString()] *)
Definition now : io string := λ b, (Value (clock b), b).

(** ** The importer: [ExcelImport.tsx] *)

(** The [results] state of the component. *)
Record outcome : Type := {
  total : nat;
  successful : nat;
  failed : nat;
  errors : list string
}.

Inductive toast : Type :=
  | ToastError (text : string)
  | ToastSuccess (text : string)
  | ToastWarning (text : string).

(** The component state the two handlers read and write; [chosenFile] is
    [fileInputRef.current?.files?.[0]?.name], [toasts] what was shown. *)
Record ui_state : Type := {
  selectedSchool : string;
  importData : list row;
  results : option outcome;
  chosenFile : option string;
  toasts : list toast
}.

Definition setImportData (rows : list row) (u : ui_state) : ui_state :=
  {| selectedSchool := selectedSchool u; importData := rows;
     results := results u; chosenFile := chosenFile u; toasts := toasts u |}.

Definition setResults (r : option outcome) (u : ui_state) : ui_state :=
  {| selectedSchool := selectedSchool u; importData := importData u;
     results := r; chosenFile := chosenFile u; toasts := toasts u |}.

Definition set_chosenFile (f : option string) (u : ui_state) : ui_state :=
  {| selectedSchool := selectedSchool u; importData := importData u;
     results := results u; chosenFile := f; toasts := toasts u |}.

Definition show (t : toast) (u : ui_state) : ui_state :=
  {| selectedSchool := selectedSchool u; importData := importData u;
     results := results u; chosenFile := chosenFile u;
     toasts := toasts u ++ [t] |}.

(** The file of the change event: its name and [XLSX.read(data)], [None]
    when reading throws. *)
Record upload : Type := {
  name : string;
  content : option workbook
}.

Definition requiredColumns : list string :=
  ["Student Name"; "SRN No"; "Class"; "Section"; "Date of Birth"].

(** [col in firstRow] *)
Definition has_key (r : row) (col : string) : bool :=
  bool_decide (is_Some (r !! col)).

(** [handleFileSelect], with the [onload] callback of the reader run at
    once. It reads and writes the component state only. *)
Definition handleFileSelect (file : option upload) (u : ui_state) : ui_state :=
  let u := set_chosenFile (name <$> file) u in
  match file with
  | None => u
  | Some f =>
      match content f with
      | None => show (ToastError "Error reading Excel file") u
      | Some wb =>
          let ws := snd <$> head wb in
          let jsonData := sheet_to_json ws in
          match jsonData with
          | [] => show (ToastError "Excel file is empty") u
          | firstRow :: _ =>
              let missingColumns :=
                List.filter (λ col, negb (has_key firstRow col)) requiredColumns in
              if (0 <? length missingColumns)%nat
              then show (ToastError ("Missing required columns: "
                                     +:+ join ", " missingColumns)) u
              else show (ToastSuccess ("Loaded " +:+ pretty (length jsonData)
                                       +:+ " student records from Excel file"))
                        (setImportData jsonData u)
          end
      end
  end.

(** [validateSRN]: [true] when no student of the school has the number;
    an [error] of the lookup gives [false]. *)
Definition validateSRN (srnNo schoolId : string) : io bool :=
  let* r := select_student srnNo schoolId in
  match r with
  | Error _ => ret false
  | Data data => ret (negb (bool_decide (is_Some data)))
  end.

(** The local variables of [importStudents]. *)
Record tally : Type := {
  successfulRecords : nat;
  failedRecords : nat;
  errorsSoFar : list string
}.

(** [errors.push(message); failedRecords++] *)
Definition rowFailed (message : string) (t : tally) : tally :=
  {| successfulRecords := successfulRecords t;
     failedRecords := S (failedRecords t);
     errorsSoFar := errorsSoFar t ++ [message] |}.

(** [successfulRecords++] *)
Definition rowImported (t : tally) : tally :=
  {| successfulRecords := S (successfulRecords t);
     failedRecords := failedRecords t;
     errorsSoFar := errorsSoFar t |}.

(** [`${v}`] and [v.toString()] of a possibly undefined value. *)
Definition template (v : option cell) : string :=
  match v with
  | Some c => js_string c
  | None => "undefined"
  end.

Definition toString (v : option cell) : io string :=
  match v with
  | Some c => ret (js_string c)
  | None => throw "Cannot read properties of undefined (reading 'toString')"
  end.

(** [`Row ${i + 1}: ${text}`] *)
Definition rowMessage (i : nat) (text : string) : string :=
  "Row " +:+ pretty (i + 1) +:+ ": " +:+ text.

Section Importer.
Context `{JsDate}.

(** The body of the loop for row [i] (counted from 0). *)
Definition importRow (selectedSchool : string) (i : nat) (r : row) (t : tally)
  : io tally :=
  try_catch
    (if negb (truthy (r !! "Student Name")) || negb (truthy (r !! "SRN No"))
        || negb (truthy (r !! "Class")) || negb (truthy (r !! "Section"))
        || negb (truthy (r !! "Date of Birth"))
     then ret (rowFailed (rowMessage i "Missing required fields") t)
     else
       let* isUnique := validateSRN (template (r !! "SRN No")) selectedSchool in
       if negb isUnique
       then ret (rowFailed (rowMessage i ("SRN " +:+ template (r !! "SRN No")
                                          +:+ " already exists")) t)
       else
         match r !! "Date of Birth" ≫= dateOfBirth with
         | None =>
             ret (rowFailed
                    (rowMessage i "Invalid date format for Date of Birth") t)
         | Some dob =>
             let* student_name := toString (r !! "Student Name") in
             let* srn_no := toString (r !! "SRN No") in
             let* class := toString (r !! "Class") in
             let* section := toString (r !! "Section") in
             let* registration_date := now in
             let* inserted :=
               insert_student
                 {| school_id := selectedSchool;
                    student_name := trim student_name;
                    srn_no := trim srn_no;
                    class := trim class;
                    section := trim section;
                    date_of_birth := dob;
                    photo_url := None;
                    registration_date := Some registration_date |} in
             match inserted with
             | Error message => ret (rowFailed (rowMessage i message) t)
             | Data _ => ret (rowImported t)
             end
         end)
    (λ message, ret (rowFailed (rowMessage i message) t)).

(** [for (let i = 0; i < importData.length; i++)], entered at row [i]. *)
Fixpoint importLoop (selectedSchool : string) (i : nat) (rows : list row)
    (t : tally) : io tally :=
  match rows with
  | [] => ret t
  | r :: rest =>
      let* t' := importRow selectedSchool i r t in
      importLoop selectedSchool (S i) rest t'
  end.

(** [filename || "unknown"] *)
Definition filename_or_unknown (f : option string) : string :=
  match f with
  | Some n => if String.eqb n "" then "unknown" else n
  | None => "unknown"
  end.

(** The object inserted into [import_logs]; [stamp] is the [created_at]
    the table fills in. *)
Definition logEntry (u : ui_state) (id : string) (totalRecords : nat)
    (t : tally) (stamp : string) : import_log :=
  {| user_id := id;
     filename := filename_or_unknown (chosenFile u);
     total_records := totalRecords;
     successful_records := successfulRecords t;
     failed_records := failedRecords t;
     log_errors := if (0 <? length (errorsSoFar t))%nat
                   then Some (join newline (errorsSoFar t))
                   else None;
     created_at := stamp |}.

(** The [try] block of [importStudents]: the user, the loop, the log. *)
Definition importRun (u : ui_state) : io tally :=
  let totalRecords := length (importData u) in
  let* user := getUser in
  let* t := importLoop (selectedSchool u) 0 (importData u)
              {| successfulRecords := 0; failedRecords := 0;
                 errorsSoFar := [] |} in
  let* _ :=
    match user with
    | Some id => insert_import_log (logEntry u id totalRecords t)
    | None => ret (Data ())
    end in
  ret t.

(** [importStudents]: the two guards, the [try] block, the outcome and the
    toasts. The [importing] flag, the progress bar and the refresh asked of
    the parent ([onImportComplete]) hold no data of the run and are left
    out. *)
Definition importStudents (u : ui_state) (b : backend) : ui_state * backend :=
  if String.eqb (selectedSchool u) ""
  then (show (ToastError "Please select a school") u, b)
  else if (length (importData u) =? 0)%nat
  then (show (ToastError "Please upload an Excel file first") u, b)
  else
    let u := setResults None u in
    match importRun u b with
    | (Value t, b') =>
        let u := setResults
                   (Some {| total := length (importData u);
                            successful := successfulRecords t;
                            failed := failedRecords t;
                            errors := errorsSoFar t |}) u in
        let u := if (0 <? successfulRecords t)%nat
                 then show (ToastSuccess
                              ("Successfully imported "
                               +:+ pretty (successfulRecords t)
                               +:+ " students")) u
                 else u in
        let u := if (0 <? failedRecords t)%nat
                 then show (ToastWarning
                              (pretty (failedRecords t)
                               +:+ " records failed to import")) u
                 else u in
        (u, b')
    | (Exception message, b') =>
        (show (ToastError ("Import process failed: " +:+ message)) u, b')
    end.

End Importer.

(** ** The exporters: [exportToExcel] of the dashboards *)

(** [userProfile?.school?.name] and [userProfile?.school?.block?.name] *)
Record userProfile : Type := {
  profile_school_id : option string;
  profile_school : option string;
  profile_block : option string
}.

(** The joined names of a student fetched by the admin dashboard:
    [student.school?.name], [student.school?.block?.name], ... *)
Record place : Type := {
  place_school : option string;
  place_block : option string;
  place_district : option string;
  place_state : option string
}.

Definition str (s : string) : option cell := Some (CStr s).

(** [v ? a : b] on a nullable string *)
Definition nonempty (v : option string) : bool :=
  match v with
  | Some s => negb (String.eqb s "")
  | None => false
  end.

Section Exporter.
Context `{JsDate}.

(** The object built for one student by the school dashboard. *)
Definition school_record (p : userProfile) (s : student) : record_obj :=
  [ ("Student Name", str (student_name s));
    ("SRN No", str (srn_no s));
    ("Class", str (class s));
    ("Section", str (section s));
    ("Date of Birth", str (date_of_birth s));
    ("School", CStr <$> profile_school p);
    ("Block", CStr <$> profile_block p);
    ("Registration Date", str (toLocaleDateString (registration_date s)));
    ("Photo Filename",
     str (if nonempty (photo_url s) then srn_no s +:+ ".jpg" else "No photo")) ].

(** The object built for one student by the admin dashboard. *)
Definition admin_record (sp : student * place) : record_obj :=
  let (s, pl) := sp in
  [ ("Student Name", str (student_name s));
    ("SRN No", str (srn_no s));
    ("Class", str (class s));
    ("Section", str (section s));
    ("Date of Birth", str (date_of_birth s));
    ("School", CStr <$> place_school pl);
    ("Block", CStr <$> place_block pl);
    ("District", CStr <$> place_district pl);
    ("State", CStr <$> place_state pl);
    ("Registration Date", str (toLocaleDateString (registration_date s))) ].

(** [XLSX.writeFile(wb, name)]: the file name and the workbook. *)
Definition written : Type := string * workbook.

(** School dashboard; [today] is [new Date().toISOString().split('T')[0]]. *)
Definition exportToExcel (p : userProfile) (today : string)
    (students : list student) : written :=
  let exportData := map (school_record p) students in
  let ws := json_to_sheet exportData in
  let wb := book_new in
  let wb := book_append_sheet wb ws "Students" in
  (default "undefined" (profile_school p) +:+ "_students_" +:+ today +:+ ".xlsx",
   wb).

(** Admin dashboard. *)
Definition exportToExcel_admin (today : string)
    (students : list (student * place)) : written :=
  let exportData := map admin_record students in
  let ws := json_to_sheet exportData in
  let wb := book_new in
  let wb := book_append_sheet wb ws "Students" in
  ("students_export_" +:+ today +:+ ".xlsx", wb).

End Exporter.

Definition school_labels : list string :=
  ["Student Name"; "SRN No"; "Class"; "Section"; "Date of Birth"; "School";
   "Block"; "Registration Date"; "Photo Filename"].

Definition admin_labels : list string :=
  ["Student Name"; "SRN No"; "Class"; "Section"; "Date of Birth"; "School";
   "Block"; "District"; "State"; "Registration Date"].

(** ** A runtime to evaluate the handlers on examples

    Dates written [YYYY-MM-DD] are taken as they are, anything else is an
    invalid date; the locale date is the stored text. *)
Definition is_digit (a : ascii) : bool :=
  bool_decide (is_Some (Ascii.is_nat a)).

Definition iso_shape (s : string) : bool :=
  match s with
  | String y1 (String y2 (String y3 (String y4 (String d1 (String m1 (String m2
      (String d2 (String a1 (String a2 EmptyString))))))))) =>
      is_digit y1 && is_digit y2 && is_digit y3 && is_digit y4
      && Ascii.eqb d1 "-" && is_digit m1 && is_digit m2
      && Ascii.eqb d2 "-" && is_digit a1 && is_digit a2
  | _ => false
  end.

Definition sample_dates : JsDate :=
  {| dateOfBirth := λ v, match v with
                         | CStr s => if iso_shape s then Some s else None
                         | _ => None
                         end;
     toLocaleDateString := default "Invalid Date" |}.

Definition sample_row (nm srn cl sec dob : string) : row :=
  list_to_map [("Student Name", CStr nm); ("SRN No", CStr srn); ("Class", CStr cl);
               ("Section", CStr sec); ("Date of Birth", CStr dob)].

Definition empty_backend (who : option string) : backend :=
  {| students := []; import_logs := []; user := who;
     clock := "2025-09-05T10:00:00.000Z"; replies := [] |}.

Definition fresh_ui (school : string) : ui_state :=
  {| selectedSchool := school; importData := []; results := None;
     chosenFile := None; toasts := [] |}.

(** * The rest of the components *)

(** ** [ExcelImport.tsx]: the template, the reset, what is rendered *)



(** [clearImport]; emptying the value of the file input drops its file. *)
Definition clearImport (u : ui_state) : ui_state :=
  {| selectedSchool := selectedSchool u; importData := []; results := None;
     chosenFile := None; toasts := toasts u |}.

(** [disabled] of the Start Import button. *)
Definition startDisabled (importing : bool) (u : ui_state) : bool :=
  importing || (length (importData u) =? 0)%nat
  || String.eqb (selectedSchool u) "".

(** The lines under View errors: the first ten messages, then the number
    of the others. *)
Definition errorPreview (errors : list string) : list string :=
  map (λ error, "• " +:+ error) (take 10 errors)
  ++ (if (10 <? length errors)%nat
      then ["... and " +:+ pretty (length errors - 10) +:+ " more errors"]
      else []).

(** ** [StudentForm]: the uniqueness check of the form *)

(** [validateSRN] of the form; [editing] is [student?.srn_no]. *)
Definition validateSRN_form (editing : option string) (schoolId srn : string)
  : io bool :=
  if String.eqb srn "" || bool_decide (editing = Some srn)
  then ret true
  else
    let* r := select_student srn schoolId in
    match r with
    | Error _ => ret true
    | Data data => ret (negb (bool_decide (is_Some data)))
    end.

(** ** What the tables give besides the columns of [student] *)

(** The rows of [students] in the order [.order("created_at",
    { ascending: false })] gives them, the pattern match of [ilike], and
    the names joined to a student by the embedded select of its school,
    block, district and state. *)
Class Tables := {
  newest_first : list student → list student;
  newest_first_perm : ∀ l, newest_first l ≡ₚ l;
  ilike : string → string → bool;
  joined : student → place
}.

(** ** The school dashboard *)

(** The state of the school dashboard: the listed students, the toasts. *)
Record school_dashboard : Type := {
  listed : list student;
  school_toasts : list toast
}.

(** [fetchStudents] of the school dashboard. *)
Definition fetchStudents `{Tables} (p : userProfile) (d : school_dashboard)
  : io school_dashboard :=
  if negb (nonempty (profile_school_id p)) then ret d
  else
    let* r := await (λ b,
      (Value (Data (newest_first
                      (filter (λ s, Some (school_id s) = profile_school_id p)
                              (students b)))), b)) in
    match r with
    | Error _ =>
        ret {| listed := listed d;
               school_toasts := school_toasts d
                                ++ [ToastError "Error fetching students"] |}
    | Data data => ret {| listed := data; school_toasts := school_toasts d |}
    end.

(** [students.filter(s => s.photo_url).length] *)
Definition studentsWithPhotos (l : list student) : nat :=
  length (List.filter (λ s, nonempty (photo_url s)) l).

(** [new Set(students.map(s => s.class))] *)
Definition uniqueClasses (l : list student) : gset string :=
  list_to_set (map class l).

(** [disabled] of the Export to Excel button of the school dashboard. *)
Definition exportDisabled (l : list student) : bool := (length l =? 0)%nat.

(** ** The admin dashboard *)

Record filters : Type := {
  filter_state : string;
  filter_district : string;
  filter_block : string;
  filter_school : string;
  filter_class : string;
  filter_section : string
}.

Definition noFilters : filters :=
  {| filter_state := ""; filter_district := ""; filter_block := "";
     filter_school := ""; filter_class := ""; filter_section := "" |}.

(** What the controls above the table do to the filters. A select that is
    [disabled] changes nothing; [clearFilters] also empties the search
    term, which is kept beside the filters. *)
Inductive filter_event : Type :=
  | SelectState (value : string)
  | SelectDistrict (value : string)
  | SelectBlock (value : string)
  | SelectSchool (value : string)
  | TypeClass (value : string)
  | TypeSection (value : string)
  | ClearFilters.

Definition setFilters (e : filter_event) (f : filters) : filters :=
  match e with
  | SelectState v =>
      {| filter_state := v; filter_district := ""; filter_block := "";
         filter_school := ""; filter_class := filter_class f;
         filter_section := filter_section f |}
  | SelectDistrict v =>
      if String.eqb (filter_state f) "" then f
      else {| filter_state := filter_state f; filter_district := v;
              filter_block := ""; filter_school := "";
              filter_class := filter_class f;
              filter_section := filter_section f |}
  | SelectBlock v =>
      if String.eqb (filter_district f) "" then f
      else {| filter_state := filter_state f;
              filter_district := filter_district f; filter_block := v;
              filter_school := ""; filter_class := filter_class f;
              filter_section := filter_section f |}
  | SelectSchool v =>
      if String.eqb (filter_block f) "" then f
      else {| filter_state := filter_state f;
              filter_district := filter_district f;
              filter_block := filter_block f; filter_school := v;
              filter_class := filter_class f;
              filter_section := filter_section f |}
  | TypeClass v =>
      {| filter_state := filter_state f; filter_district := filter_district f;
         filter_block := filter_block f; filter_school := filter_school f;
         filter_class := v; filter_section := filter_section f |}
  | TypeSection v =>
      {| filter_state := filter_state f; filter_district := filter_district f;
         filter_block := filter_block f; filter_school := filter_school f;
         filter_class := filter_class f; filter_section := v |}
  | ClearFilters => noFilters
  end.

(** The state of the admin dashboard the list depends on. *)
Record admin_dashboard : Type := {
  searchTerm : string;
  chosen : filters;
  shown : list (student * place);
  admin_toasts : list toast
}.

(** The [WHERE] part of the query of the admin dashboard. *)
Definition selected `{Tables} (term : string) (f : filters) (s : student) : bool :=
  (String.eqb term "" || ilike ("%" +:+ term +:+ "%") (srn_no s))
  && (String.eqb (filter_school f) "" || String.eqb (school_id s) (filter_school f))
  && (String.eqb (filter_class f) "" || String.eqb (class s) (filter_class f))
  && (String.eqb (filter_section f) ""
      || String.eqb (section s) (filter_section f)).

(** [fetchStudents] of the admin dashboard. *)
Definition fetchStudents_admin `{Tables} (d : admin_dashboard)
  : io admin_dashboard :=
  let* r := await (λ b,
    (Value (Data (take 100
                    (map (λ s, (s, joined s))
                       (newest_first
                          (List.filter (selected (searchTerm d) (chosen d))
                                       (students b)))))), b)) in
  match r with
  | Error _ =>
      ret {| searchTerm := searchTerm d; chosen := chosen d; shown := shown d;
             admin_toasts := admin_toasts d
                             ++ [ToastError "Error fetching students"] |}
  | Data data =>
      ret {| searchTerm := searchTerm d; chosen := chosen d; shown := data;
             admin_toasts := admin_toasts d |}
  end.

(** * Vocabulary of the properties *)

(** The tally the loop starts from. *)
Definition tally0 : tally :=
  {| successfulRecords := 0; failedRecords := 0; errorsSoFar := [] |}.

(** The store after one row: untouched tables, or one more student whose
    key was free. Replies are consumed, nothing else changes. *)
Definition row_effect (sch : string) (t t' : tally) (b b' : backend) : Prop :=
  import_logs b' = import_logs b ∧ user b' = user b ∧ clock b' = clock b
  ∧ ((students b' = students b ∧ ∃ message, t' = rowFailed message t)
     ∨ (∃ s, school_id s = sch ∧ key_taken s (students b) = false
             ∧ students b' = students b ++ [s] ∧ t' = rowImported t)).

(** A call that only reads: the tables, the user and the clock stay. *)
Definition same_tables (b b' : backend) : Prop :=
  students b' = students b ∧ import_logs b' = import_logs b
  ∧ user b' = user b ∧ clock b' = clock b.

(** The key of the table constraint, and the invariant it keeps. *)
Definition key (s : student) : string * string := (school_id s, srn_no s).

Definition srn_unique (l : list student) : Prop := NoDup (map key l).

(** The entry a run of [u] by user [id] with final tally [t] asks for. *)
Definition summary (u : ui_state) (id : string) (t : tally) (stamp : string)
  : import_log :=
  {| user_id := id;
     filename := match chosenFile u with
                 | Some n => if String.eqb n "" then "unknown" else n
                 | None => "unknown"
                 end;
     total_records := length (importData u);
     successful_records := successfulRecords t;
     failed_records := failedRecords t;
     log_errors := match errorsSoFar t with
                   | [] => None
                   | _ => Some (join newline (errorsSoFar t))
                   end;
     created_at := stamp |}.

(** What a run of the loop over [n] rows leaves behind. *)
Record loop_effect (sch : string) (n : nat) (t t' : tally) (b b' : backend)
  : Prop := {
  loop_logs : import_logs b' = import_logs b;
  loop_user : user b' = user b;
  loop_clock : clock b' = clock b;
  loop_counts : successfulRecords t' + failedRecords t'
                = successfulRecords t + failedRecords t + n;
  loop_errors : ∃ more, errorsSoFar t' = errorsSoFar t ++ more
                        ∧ failedRecords t' = failedRecords t + length more;
  loop_students : ∃ added, students b' = students b ++ added
                           ∧ successfulRecords t'
                             = successfulRecords t + length added
                           ∧ Forall (λ s, school_id s = sch) added;
  loop_unique : srn_unique (students b) → srn_unique (students b')
}.

(** What the [try] block of a run leaves behind, whatever its result. *)
Record run_effect (u : ui_state) (b : backend) (r : result tally)
    (b' : backend) : Prop := {
  run_user : user b' = user b;
  run_clock : clock b' = clock b;
  run_students : ∃ added, students b' = students b ++ added
                          ∧ Forall (λ s, school_id s = selectedSchool u) added
                          ∧ ∀ t, r = Value t → successfulRecords t = length added;
  run_unique : srn_unique (students b) → srn_unique (students b');
  run_counts : ∀ t, r = Value t →
               successfulRecords t + failedRecords t = length (importData u)
               ∧ length (errorsSoFar t) = failedRecords t;
  run_logs : import_logs b' = import_logs b
             ∨ ∃ id t, user b = Some id ∧ r = Value t
                 ∧ import_logs b'
                   = import_logs b
                     ++ [summary u id t (clock b)]
}.

(** The outcome shown for a tally. *)
Definition outcome_of (u : ui_state) (t : tally) : outcome :=
  {| total := length (importData u); successful := successfulRecords t;
     failed := failedRecords t; errors := errorsSoFar t |}.

(** The header cells and the parsed data rows of the first sheet of an
    uploaded file (none when the workbook cannot be read). *)
Definition file_headers (f : upload) : list string :=
  match content f with
  | Some wb => match head wb with
               | Some (_, ws) => headers ws
               | None => []
               end
  | None => []
  end.

Definition file_rows (f : upload) : list row :=
  match content f with
  | Some wb => sheet_to_json (snd <$> head wb)
  | None => []
  end.

(** All five required cells of the row are truthy. *)
Definition filled (r : row) : bool :=
  forallb (λ col, truthy (r !! col)) requiredColumns.

(** The message of a row whose SRN is found in the store. *)
Definition alreadyExists (i : nat) (r : row) : string :=
  rowMessage i ("SRN " +:+ template (r !! "SRN No") +:+ " already exists").

(** The student a row is inserted as. *)
Definition newStudent (sch : string) (r : row) (dob stamp : string) : student :=
  {| school_id := sch;
     student_name := trim (template (r !! "Student Name"));
     srn_no := trim (template (r !! "SRN No"));
     class := trim (template (r !! "Class"));
     section := trim (template (r !! "Section"));
     date_of_birth := dob;
     photo_url := None;
     registration_date := Some stamp |}.

(** The students a lookup of [srnNo] under [sch] matches. *)
Definition matching (srnNo sch : string) (l : list student) : list student :=
  filter (λ s, srn_no s = srnNo ∧ school_id s = sch) l.





(** The claim as the specification words it: the sheet [Students] holds
    the header row of the export and no data row. *)
Definition header_row_only (labels : list string) (w : written) : Prop :=
  w.2 = [("Students", {| headers := labels; body := [] |})].

(** All five required columns of a stored student hold some text. *)
Definition complete (s : student) : bool :=
  negb (String.eqb (student_name s) "") && negb (String.eqb (srn_no s) "")
  && negb (String.eqb (class s) "") && negb (String.eqb (section s) "")
  && negb (String.eqb (date_of_birth s) "").

(** The message the row of student [s] gets when it is imported again. *)
Definition reimportMessage (i : nat) (s : student) : string :=
  if complete s
  then rowMessage i ("SRN " +:+ srn_no s +:+ " already exists")
  else rowMessage i "Missing required fields".

Fixpoint reimportErrors (i : nat) (l : list student) : list string :=
  match l with
  | [] => []
  | s :: l' => reimportMessage i s :: reimportErrors (S i) l'
  end.

(** The messages if every row were reported as a duplicate. *)
Fixpoint duplicateErrors (i : nat) (l : list student) : list string :=
  match l with
  | [] => []
  | s :: l' => rowMessage i ("SRN " +:+ srn_no s +:+ " already exists")
               :: duplicateErrors (S i) l'
  end.

(** The row read back from the sheet for student [s]. *)
Definition exported_row `{JsDate} (p : userProfile) (s : student) : row :=
  list_to_map (row_pairs school_labels
                 (map (obj_get (school_record p s)) school_labels)).

(** Export the students [l], choose the written file in a fresh import
    form with school [sch] selected, start the import. *)
Definition reimport `{JsDate} (p : userProfile) (today sch : string)
    (l : list student) (b : backend) : ui_state * backend :=
  let w := exportToExcel p today l in
  importStudents
    (handleFileSelect (Some {| name := w.1; content := Some w.2 |})
                      (fresh_ui sch)) b.

(** The claim as the specification words it: nothing is inserted, no row
    succeeds and every row is reported as a duplicate. *)
Definition reimport_all_duplicates `{JsDate} (p : userProfile)
    (today sch : string) (l : list student) (b : backend) : Prop :=
  students (reimport p today sch l b).2 = students b
  ∧ ∃ o, results (reimport p today sch l b).1 = Some o
         ∧ successful o = 0 ∧ errors o = duplicateErrors 0 l.

(** The two-row import of [r1] then [r2] into school [sch]. *)
Definition importTwo `{JsDate} (sch : string) (r1 r2 : row) (b : backend)
  : ui_state * backend :=
  importStudents (setImportData [r1; r2] (fresh_ui sch)) b.


(** ** Files, stores and forms used as examples *)

Definition three_rows : ui_state :=
  setImportData [sample_row "Asha" "SRN001" "10" "A" "2005-05-15";
                 sample_row "" "SRN002" "10" "A" "2005-03-20";
                 sample_row "Ravi" "SRN003" "10" "B" "2006-01-02"]
                (fresh_ui "school-1").

(** A first row whose class is the number 0, a falsy cell. *)
Definition row_class_zero : row :=
  list_to_map [("Student Name", CStr "Asha"); ("SRN No", CStr "SRN001");
               ("Class", CNum (integer 0)); ("Section", CStr "A");
               ("Date of Birth", CStr "2005-05-15")].

Definition two_same_srn : ui_state :=
  setImportData [sample_row "Asha" "SRN001" "10" "A" "2005-05-15";
                 sample_row "Ravi" "SRN001" "10" "B" "2006-01-02"]
                (fresh_ui "school-1").

Definition sheet_without_section : upload :=
  {| name := "students.xlsx";
     content := Some [("Sheet1",
       {| headers := ["Student Name"; "SRN No"; "Class"; "Date of Birth"];
          body := [[Some (CStr "Asha"); Some (CStr "SRN001"); Some (CNum (integer 10));
                    Some (CStr "2005-05-15")]] |})] |}.

(** A sheet with the five header cells whose first data row has no cell
    under [Section], and the same sheet with its two rows exchanged. *)
Definition first_row_blank_section : upload :=
  {| name := "class10.xlsx";
     content := Some [("Sheet1",
       {| headers := requiredColumns;
          body := [[Some (CStr "Asha"); Some (CStr "SRN001"); Some (CStr "10");
                    None; Some (CStr "2005-05-15")];
                   [Some (CStr "Ravi"); Some (CStr "SRN002"); Some (CStr "10");
                    Some (CStr "B"); Some (CStr "2006-01-02")]] |})] |}.

Definition second_row_blank_section : upload :=
  {| name := "class10.xlsx";
     content := Some [("Sheet1",
       {| headers := requiredColumns;
          body := [[Some (CStr "Ravi"); Some (CStr "SRN002"); Some (CStr "10");
                    Some (CStr "B"); Some (CStr "2006-01-02")];
                   [Some (CStr "Asha"); Some (CStr "SRN001"); Some (CStr "10");
                    None; Some (CStr "2005-05-15")]] |})] |}.

Definition sheet_without_rows : upload :=
  {| name := "empty.xlsx";
     content := Some [("Students",
       {| headers := requiredColumns; body := [[None; None; None; None; None]] |})] |}.


(** A store the importer itself filled: the name of the second row is a
    blank, which is truthy and trimmed to the empty text on insert. *)
Definition blank_name_store : backend :=
  (importStudents (H := sample_dates)
     (setImportData [sample_row "Asha" "SRN001" "10" "A" "2005-05-15";
                     sample_row " " "SRN002" "10" "B" "2006-01-02"]
                    (fresh_ui "school-1"))
     (empty_backend (Some "user-1"))).2.

Definition school_one : userProfile :=
  {| profile_school_id := Some "school-1";
     profile_school := Some "Model School";
     profile_block := Some "North" |}.

(** ** Vocabulary of the further properties *)

(** The messages of the failed rows [fails], given with their index. *)
Definition rowMessages (fails : list (nat * string)) : list string :=
  map (λ jm, rowMessage jm.1 jm.2) fails.

(** A student as the importer writes it: under school [sch], the four
    texts trimmed, no photo, a registration date. *)
Definition imported_shape (sch : string) (s : student) : Prop :=
  school_id s = sch
  ∧ trim (student_name s) = student_name s ∧ trim (srn_no s) = srn_no s
  ∧ trim (class s) = class s ∧ trim (section s) = section s
  ∧ photo_url s = None ∧ is_Some (registration_date s).

(** The student comes from row [r] of an import into [sch]. *)
Definition built_from `{JsDate} (sch : string) (r : row) (s : student) : Prop :=
  ∃ dob stamp, r !! "Date of Birth" ≫= dateOfBirth = Some dob
               ∧ s = newStudent sch r dob stamp.

(** A row the store turns down when every call is served: a required cell
    is missing, the lookup finds its SRN, its date does not parse, or the
    trimmed SRN is taken in the school. *)
Definition blocked `{JsDate} (sch : string) (l : list student) (r : row) : Prop :=
  filled r = false
  ∨ matching (template (r !! "SRN No")) sch l ≠ []
  ∨ r !! "Date of Birth" ≫= dateOfBirth = None
  ∨ ∃ s, s ∈ l ∧ school_id s = sch
         ∧ srn_no s = trim (template (r !! "SRN No")).

(** The text after the white space code point it starts with, if any. *)
Definition leading (sp2 : ascii → ascii → bool)
    (sp3 : ascii → ascii → ascii → bool) (s : string) : option string :=
  match s with
  | String a s1 =>
      if Ascii.is_space a then Some s1
      else match s1 with
           | String b s2 =>
               if sp2 a b then Some s2
               else match s2 with
                    | String c s3 => if sp3 a b c then Some s3 else None
                    | EmptyString => None
                    end
           | EmptyString => None
           end
  | EmptyString => None
  end.

(** A text padded with no-break spaces (U+00A0) and a byte order mark
    (U+FEFF), as a cell pasted from a web page may be. *)
Definition no_break_space : string := String "194" (String "160" "").
Definition byte_order_mark : string :=
  String "239" (String "187" (String "191" "")).



(** A file the loader takes, and one it turns down. *)
Definition accepted (f : upload) : Prop :=
  file_rows f ≠ []
  ∧ Forall (λ col, has_key (default ∅ (head (file_rows f))) col = true)
           requiredColumns.

Definition turned_down (f : upload) : Prop :=
  content f = None ∨ file_rows f = []
  ∨ ∃ col, col ∈ requiredColumns
           ∧ has_key (default ∅ (head (file_rows f))) col = false.

(** One good row, a backend that serves the user, the lookup and the
    insert and then throws on the log. *)
Definition one_row : ui_state :=
  setImportData [sample_row "Asha" "SRN001" "10" "A" "2005-05-15"]
                (fresh_ui "school-1").

Definition log_throws : backend :=
  set_replies [Served; Served; Served; Thrown "connection lost"]
              (empty_backend (Some "user-1")).

(** A file with the five columns and one row, and a file without rows. *)
Definition good_file : upload :=
  {| name := "class10.xlsx";
     content := Some [("Sheet1",
       {| headers := requiredColumns;
          body := [[Some (CStr "Asha"); Some (CStr "SRN001"); Some (CNum (integer 10));
                    Some (CStr "A"); Some (CStr "2005-05-15")]] |})] |}.


(** The row read back from the sheet of the admin dashboard. *)
Definition exported_row_admin `{JsDate} (sp : student * place) : row :=
  list_to_map (row_pairs admin_labels
                 (map (obj_get (admin_record sp)) admin_labels)).

(** The row carries the five required columns of the student as stored. *)
Definition carries (s : student) (r : row) : Prop :=
  r !! "Student Name" = Some (CStr (student_name s))
  ∧ r !! "SRN No" = Some (CStr (srn_no s))
  ∧ r !! "Class" = Some (CStr (class s))
  ∧ r !! "Section" = Some (CStr (section s))
  ∧ r !! "Date of Birth" = Some (CStr (date_of_birth s)).

(** A school is only chosen under a block, a block under a district, a
    district under a state. *)
Definition nested (f : filters) : Prop :=
  (filter_school f ≠ "" → filter_block f ≠ "")
  ∧ (filter_block f ≠ "" → filter_district f ≠ "")
  ∧ (filter_district f ≠ "" → filter_state f ≠ "").

(** Cells can be compared. *)
#[global] Instance number_eq_dec : EqDecision number.
Proof. solve_decision. Defined.

#[global] Instance cell_eq_dec : EqDecision cell.
Proof. solve_decision. Defined.

(** The records of the school export that say the student has no photo. *)
Definition withoutPhoto `{JsDate} (p : userProfile) (l : list student)
  : list record_obj :=
  List.filter (λ o, bool_decide (obj_get o "Photo Filename" = str "No photo"))
              (map (school_record p) l).

(** Tables that list the newest row first when rows are kept in the order
    they were inserted; [ilike] is only asked for in examples without a
    search term. *)
Definition sample_tables : Tables :=
  {| newest_first := reverse;
     newest_first_perm := reverse_Permutation;
     ilike := λ _ _, true;
     joined := λ _, {| place_school := Some "Model School";
                       place_block := Some "North";
                       place_district := None; place_state := None |} |}.

(** * Properties *)

(** ** What one row and the whole loop do to the tally and to the store *)

Lemma same_tables_refl b : same_tables b b.
Proof. by repeat split. Qed.

Lemma remote_same_tables b r b' :
  remote b = (r, b') → same_tables b b' ∧ ∃ x, r = Value x.
Proof.
  unfold remote. destruct (replies b); intros [= <- <-];
    (split; [by repeat split | eauto]).
Qed.

Lemma select_student_same_tables srnNo sch b r b' :
  select_student srnNo sch b = (r, b') → same_tables b b'.
Proof.
  unfold select_student, await, bind.
  destruct (remote b) as [[x|e] b1] eqn:E;
    apply remote_same_tables in E as [E [y [= <-]]].
  destruct x; unfold ret, throw; intros [= <- <-]; done.
Qed.

Lemma validateSRN_same_tables srnNo sch b r b' :
  validateSRN srnNo sch b = (r, b') → same_tables b b'.
Proof.
  unfold validateSRN, bind.
  destruct (select_student srnNo sch b) as [[x|e] b1] eqn:E;
    apply select_student_same_tables in E.
  - destruct x; unfold ret; intros [= <- <-]; done.
  - intros [= <- <-]; done.
Qed.

Lemma toString_pure v b r b' : toString v b = (r, b') → b' = b.
Proof. destruct v; unfold toString, ret, throw; by intros [= <- <-]. Qed.

(** An insert either appends the student under a free key and answers
    without error, or leaves the table as it was and does not. *)
Lemma insert_student_effect s b r b' :
  insert_student s b = (r, b') →
  import_logs b' = import_logs b ∧ user b' = user b ∧ clock b' = clock b
  ∧ ((students b' = students b ∧ r ≠ Value (Data ()))
     ∨ (key_taken s (students b) = false ∧ students b' = students b ++ [s]
        ∧ r = Value (Data ()))).
Proof.
  unfold insert_student, await, bind.
  destruct (remote b) as [[x|e] b1] eqn:E;
    apply remote_same_tables in E as [(E1 & E2 & E3 & E4) [y [= <-]]].
  destruct x; unfold ret, throw.
  - destruct (key_taken s (students b1)) eqn:K; intros [= <- <-]; simpl;
      rewrite ?E1, ?E2, ?E3, ?E4; repeat split; auto.
    right. by rewrite <- E1.
  - intros [= <- <-]. repeat split; auto.
  - intros [= <- <-]. repeat split; auto.
Qed.

Lemma getUser_effect b r b' :
  getUser b = (r, b') →
  same_tables b b'
  ∧ (r = Value (user b) ∨ r = Value None ∨ ∃ message, r = Exception message).
Proof.
  unfold getUser, bind.
  destruct (remote b) as [[x|e] b1] eqn:E;
    apply remote_same_tables in E as [E [y [= <-]]].
  destruct x; unfold ret, throw; intros [= <- <-]; (split; [done|]); eauto.
  left. by destruct E as (_ & _ & -> & _).
Qed.

Lemma insert_import_log_effect entry b r b' :
  insert_import_log entry b = (r, b') →
  students b' = students b ∧ user b' = user b ∧ clock b' = clock b
  ∧ (import_logs b' = import_logs b
     ∨ (import_logs b' = import_logs b ++ [entry (clock b)]
        ∧ r = Value (Data ()))).
Proof.
  unfold insert_import_log, await, bind.
  destruct (remote b) as [[x|e] b1] eqn:E;
    apply remote_same_tables in E as [(E1 & E2 & E3 & E4) [y [= <-]]].
  destruct x; unfold ret, throw; intros [= <- <-]; simpl;
    rewrite ?E1, ?E2, ?E3, ?E4; repeat split; auto.
Qed.

Lemma key_taken_false s l : key_taken s l = false → key s ∉ map key l.
Proof.
  unfold key_taken. intros K%bool_decide_eq_false In.
  apply K, Exists_exists. apply list_elem_of_In, in_map_iff in In as (s' & E & In).
  exists s'. split; [by apply list_elem_of_In|].
  unfold key in E. by simplify_eq.
Qed.

Lemma srn_unique_insert s l :
  srn_unique l → key_taken s l = false → srn_unique (l ++ [s]).
Proof.
  unfold srn_unique. intros U K%key_taken_false.
  rewrite map_app. apply NoDup_app. split; [done|]. split.
  - intros k In1 In2%list_elem_of_singleton. by subst.
  - apply NoDup_singleton.
Qed.

Section ImporterFacts.
Context `{JsDate}.

Lemma importRow_effect sch i r t b :
  ∃ t' b', importRow sch i r t b = (Value t', b') ∧ row_effect sch t t' b b'.
Proof.
  assert (Hfail : ∀ m b1, same_tables b b1 →
            ∃ t' b', (Value (rowFailed m t), b1) = (Value t', b')
                     ∧ row_effect sch t t' b b').
  { intros m b1 (E1 & E2 & E3 & E4). eexists _, _. split; [done|].
    repeat split; eauto. }
  unfold importRow, try_catch, bind.
  destruct (_ || _); [apply Hfail, same_tables_refl|].
  destruct (validateSRN _ sch b) as [[u|e] b1] eqn:E;
    apply validateSRN_same_tables in E; [|by apply Hfail].
  destruct u; simpl; [|by apply Hfail].
  destruct (_ ≫= dateOfBirth) as [dob|]; [|by apply Hfail].
  repeat match goal with
  | |- context [toString ?v ?b0] =>
      let E' := fresh in
      destruct (toString v b0) as [[?|?] ?] eqn:E';
      apply toString_pure in E'; subst; [|by apply Hfail]
  end.
  destruct (insert_student _ b1) as [[x|e] b2] eqn:I;
    apply insert_student_effect in I as (I2 & I3 & I4 & I);
    destruct E as (E1 & E2 & E3 & E4).
  - destruct x as [[]|m].
    + destruct I as [[_ I]|(K & I & _)]; [done|].
      eexists _, _. split; [done|]. unfold row_effect.
      rewrite I2, I3, I4. repeat split; auto. right.
      match type of K with key_taken ?s _ = _ => exists s end.
      rewrite I, <- E1. by repeat split.
    + destruct I as [[I _]|(_ & _ & ?)]; [|done].
      apply Hfail. repeat split; congruence.
  - destruct I as [[I _]|(_ & _ & ?)]; [|done].
    apply Hfail. repeat split; congruence.
Qed.

Lemma importLoop_effect sch rows : ∀ i t b,
  ∃ t' b', importLoop sch i rows t b = (Value t', b')
           ∧ loop_effect sch (length rows) t t' b b'.
Proof.
  induction rows as [|r rows IH]; intros i t b; simpl.
  - exists t, b. split; [done|]. split; auto; try lia.
    + exists []. by rewrite app_nil_r.
    + exists []. rewrite app_nil_r. by repeat split.
  - unfold bind.
    destruct (importRow_effect sch i r t b)
      as (t1 & b1 & -> & L1 & U1 & C1 & R).
    destruct (IH (S i) t1 b1) as (t2 & b2 & -> & [L2 U2 C2 N2 E2 S2 Q2]).
    exists t2, b2. split; [done|].
    destruct E2 as (more & E2 & F2). destruct S2 as (added & S2 & A2 & W2).
    destruct R as [[S1 [m ->]]|(s & Ws & K & S1 & ->)]; simpl in *.
    + split; try congruence; try lia.
      * exists (m :: more). rewrite E2, <- app_assoc. simpl.
        split; [done|lia].
      * exists added. by rewrite S2, S1.
      * intros U. apply Q2. by rewrite S1.
    + split; try congruence; try lia.
      * exists more. split; [done|lia].
      * exists (s :: added). rewrite S2, S1, <- app_assoc. simpl.
        split; [done|]. split; [lia|]. by constructor.
      * intros U. apply Q2. rewrite S1. by apply srn_unique_insert.
Qed.

Lemma logEntry_fields u id t stamp :
  logEntry u id (length (importData u)) t stamp = summary u id t stamp.
Proof. unfold logEntry, summary. by destruct (errorsSoFar t). Qed.

Lemma importRun_effect u b :
  ∃ r b', importRun u b = (r, b') ∧ run_effect u b r b'.
Proof.
  unfold importRun, bind.
  destruct (getUser b) as [who b0] eqn:G.
  apply getUser_effect in G as [(G1 & G2 & G3 & G4) G].
  assert (Hexn : ∀ m, run_effect u b (Exception m) b0).
  { intros m. split; try done.
    - exists []. rewrite app_nil_r. by repeat split.
    - by rewrite G1.
    - by left. }
  destruct who as [who|m]; [|by eauto].
  destruct (importLoop_effect (selectedSchool u) (importData u) 0 tally0 b0)
    as (t & b1 & L & [L1 L2 L3 L4 (more & L5 & L6) (added & L7 & L8 & L9) L10]).
  unfold tally0 in L. rewrite L. simpl in *.
  assert (Hstud : ∀ r b2, students b2 = students b1 → user b2 = user b1 →
            clock b2 = clock b1 →
            (import_logs b2 = import_logs b
             ∨ ∃ id t0, user b = Some id ∧ r = Value t0
                 ∧ import_logs b2
                   = import_logs b
                     ++ [logEntry u id (length (importData u)) t0 (clock b)]) →
            (∀ t0, r = Value t0 → t0 = t) →
            run_effect u b r b2).
  { intros r b2 E1 E2 E3 E4 E5. split.
    - congruence.
    - congruence.
    - exists added. rewrite E1, L7, G1. repeat split; [done|].
      intros t0 ->%E5. done.
    - rewrite E1, <- G1. done.
    - intros t0 ->%E5. split; [done|]. rewrite L5, L6. done.
    - destruct E4 as [E4|(id & t0 & E4 & E6 & E7)]; [by left|].
      right. exists id, t0. by rewrite <- logEntry_fields. }
  destruct who as [id|].
  - destruct (insert_import_log _ b1) as [[x|e] b2] eqn:I;
      apply insert_import_log_effect in I as (I1 & I2 & I3 & I4).
    + eexists _, _. split; [done|]. apply Hstud; auto; [|congruence].
      destruct I4 as [I4|[I4 _]]; [left; congruence|].
      right. exists id, t. destruct G as [G|[G|[? G]]]; simplify_eq.
      split; [done|]. split; [done|]. rewrite I4. congruence.
    + eexists _, _. split; [done|]. apply Hstud; auto; [|congruence].
      destruct I4 as [I4|[_ I4]]; [left; congruence|done].
  - eexists _, _. split; [done|]. apply Hstud; auto; [|congruence].
    left. congruence.
Qed.

Lemma importStudents_not_started u b :
  selectedSchool u = "" ∨ importData u = [] →
  ∃ text, importStudents u b = (show (ToastError text) u, b).
Proof.
  unfold importStudents. intros [E|E]; rewrite E; simpl; [eauto|].
  destruct (String.eqb _ _); eauto.
Qed.

Lemma importStudents_started u b :
  selectedSchool u ≠ "" → importData u ≠ [] →
  ∃ r b', importRun u b = (r, b') ∧ run_effect u b r b'
          ∧ (importStudents u b).2 = b'
          ∧ match r with
            | Value t => results (importStudents u b).1 = Some (outcome_of u t)
            | Exception m =>
                (importStudents u b).1
                = show (ToastError ("Import process failed: " +:+ m))
                       (setResults None u)
            end.
Proof.
  intros E1 E2. destruct (importRun_effect u b) as (r & b' & R & Q).
  exists r, b'. split; [done|]. split; [done|].
  unfold importStudents.
  apply String.eqb_neq in E1 as ->.
  destruct (importData u) as [|r0 rows] eqn:D; [done|].
  change (length (r0 :: rows) =? 0)%nat with false. cbv iota.
  change (importRun (setResults None u) b) with (importRun u b).
  rewrite R. destruct r as [t|m]; [|done]. split; [done|].
  unfold outcome_of. by repeat case_match.
Qed.

End ImporterFacts.

(** ** C4: the external id stays unique within a school *)

(** C4. If no two students of the store share school and SRN, the same
    holds after an import run, whatever the rows and the replies of the
    backend; the run only appends students, all of the selected school. *)
Theorem import_keeps_srn_unique `{JsDate} (u : ui_state) (b : backend) :
  srn_unique (students b) →
  srn_unique (students (importStudents u b).2)
  ∧ ∃ added, students (importStudents u b).2 = students b ++ added
             ∧ Forall (λ s, school_id s = selectedSchool u) added.
Proof.
  intros U.
  destruct (decide (selectedSchool u = "")) as [E1|E1];
    [|destruct (decide (importData u = [])) as [E2|E2]].
  - destruct (importStudents_not_started u b (or_introl E1)) as [m ->].
    split; [done|]. exists []. by rewrite app_nil_r.
  - destruct (importStudents_not_started u b (or_intror E2)) as [m ->].
    split; [done|]. exists []. by rewrite app_nil_r.
  - destruct (importStudents_started u b E1 E2) as (r & b' & _ & Q & -> & _).
    split; [by apply (run_unique _ _ _ _ Q)|].
    destruct (run_students _ _ _ _ Q) as (added & ? & ? & _). eauto.
Qed.

Lemma import_keeps_srn_unique_witness :
  srn_unique (students (empty_backend (Some "user-1")))
  ∧ srn_unique (students (importStudents (H := sample_dates) two_same_srn
                            (empty_backend (Some "user-1"))).2).
Proof.
  assert (U : srn_unique (students (empty_backend (Some "user-1"))))
    by apply NoDup_nil_2.
  split; [exact U|].
  exact (proj1 (import_keeps_srn_unique (H := sample_dates) two_same_srn
                  (empty_backend (Some "user-1")) U)).
Defined.

(** ** Loading a file: C2, C9 and the file part of C7 *)

Lemma row_pairs_keys hdr cells k v :
  (k, v) ∈ row_pairs hdr cells → k ∈ hdr.
Proof.
  revert cells. induction hdr as [|h hdr IH]; intros [|[c|] cells]; simpl;
    try by intros ?%elem_of_nil.
  - intros [[= -> ->]|In]%elem_of_cons; [left|right; eauto].
  - right; eauto.
Qed.

(** A parsed row only has keys that are header cells of its sheet. *)
Lemma sheet_row_keys ws r col :
  r ∈ sheet_to_json (Some ws) → has_key r col = true → col ∈ headers ws.
Proof.
  unfold sheet_to_json, has_key.
  intros (cells & _ & E)%list_elem_of_omap [v Hv]%bool_decide_eq_true.
  destruct (row_pairs (headers ws) cells) as [|kv kvs] eqn:P; [done|].
  simplify_eq. apply elem_of_list_to_map_2 in Hv. rewrite <- P in Hv.
  by apply row_pairs_keys in Hv.
Qed.

Lemma file_row_keys f r col :
  r ∈ file_rows f → has_key r col = true → col ∈ file_headers f.
Proof.
  unfold file_rows, file_headers. destruct (content f) as [wb|]; simpl;
    [|by intros ?%elem_of_nil].
  destruct (head wb) as [[nm ws]|]; simpl; [apply sheet_row_keys|].
  by intros ?%elem_of_nil.
Qed.

(** [handleFileSelect] on a chosen file, case by case. *)
Lemma handleFileSelect_cases f u :
  let u0 := set_chosenFile (Some (name f)) u in
  let missing :=
    List.filter (λ col, negb (has_key (default ∅ (head (file_rows f))) col))
                requiredColumns in
  handleFileSelect (Some f) u
  = match content f with
    | None => show (ToastError "Error reading Excel file") u0
    | Some _ =>
        if bool_decide (file_rows f = [])
        then show (ToastError "Excel file is empty") u0
        else if bool_decide (missing = [])
        then show (ToastSuccess ("Loaded " +:+ pretty (length (file_rows f))
                                 +:+ " student records from Excel file"))
                  (setImportData (file_rows f) u0)
        else show (ToastError ("Missing required columns: "
                               +:+ join ", " missing)) u0
    end.
Proof.
  unfold handleFileSelect, file_rows.
  cbn -[List.filter sheet_to_json pretty bool_decide].
  destruct (content f) as [wb|]; [|done].
  destruct (sheet_to_json (snd <$> head wb)) as [|r rows].
  { by rewrite bool_decide_eq_true_2. }
  rewrite (bool_decide_eq_false_2 (_ :: _ = [])) by done.
  change (default ∅ (head (r :: rows))) with r.
  generalize (List.filter (λ col, negb (has_key r col)) requiredColumns).
  intros [|c cs].
  - by rewrite bool_decide_eq_true_2.
  - by rewrite bool_decide_eq_false_2.
Qed.

(** C2. A file whose header row lacks one of the five required columns is
    rejected when it is chosen: the loaded rows, the outcome and the chosen
    school stay as they were and an error is shown. The handler has no
    access to the store; an import started afterwards on a component that
    held no rows does not start and leaves the store as it is. *)
Theorem missing_header_rejects_file `{JsDate} (f : upload) (u : ui_state)
    (col : string) :
  col ∈ requiredColumns → col ∉ file_headers f →
  importData (handleFileSelect (Some f) u) = importData u
  ∧ results (handleFileSelect (Some f) u) = results u
  ∧ selectedSchool (handleFileSelect (Some f) u) = selectedSchool u
  ∧ (∃ text, toasts (handleFileSelect (Some f) u)
             = toasts u ++ [ToastError text])
  ∧ (importData u = [] →
     ∀ b, (importStudents (handleFileSelect (Some f) u) b).2 = b).
Proof.
  intros Req Miss.
  assert (R : ∃ text, handleFileSelect (Some f) u
                      = show (ToastError text)
                             (set_chosenFile (Some (name f)) u)).
  { rewrite handleFileSelect_cases. destruct (content f) as [wb|] eqn:C; [|eauto].
    case_bool_decide as E; [eauto|].
    case_bool_decide as M; [|eauto]. exfalso.
    destruct (file_rows f) as [|r rows] eqn:R; [done|].
    change (default ∅ (head (r :: rows))) with r in M.
    assert (In col (List.filter (λ c, negb (has_key r c)) requiredColumns)) as I.
    { apply filter_In. split; [by apply list_elem_of_In|].
      apply negb_true_iff, not_true_is_false. intros K. apply Miss.
      apply (file_row_keys f r); [|done]. rewrite R. by left. }
    by rewrite M in I. }
  destruct R as [text ->]. simpl. repeat split; eauto.
  intros E b.
  destruct (importStudents_not_started
              (show (ToastError text) (set_chosenFile (Some (name f)) u)) b
              (or_intror E)) as [m ->].
  done.
Qed.

Lemma missing_header_rejects_file_witness :
  toasts (handleFileSelect (Some sheet_without_section) (fresh_ui "school-1"))
  = [ToastError "Missing required columns: Section"]
  ∧ importData (handleFileSelect (Some sheet_without_section)
                  (fresh_ui "school-1")) = [].
Proof.
  split; [vm_compute; reflexivity|].
  refine (proj1 (missing_header_rejects_file (H := sample_dates)
                   sheet_without_section (fresh_ui "school-1") "Section" _ _)).
  - vm_compute. repeat constructor.
  - vm_compute. intros I. repeat (inversion I as [|? ? ? I']; subst; clear I;
      rename I' into I). 
Defined.

(** C9. A workbook whose first sheet parses to no data row is rejected with
    the empty-file error: only the toast and the file of the input change,
    no rows are loaded. An import asked for while no rows are loaded does
    not start: it shows an error and leaves the store and the outcome as
    they were, so no run has a total of zero rows. *)
Theorem empty_sheet_rejected `{JsDate} (f : upload) (wb : workbook)
    (u : ui_state) :
  content f = Some wb → sheet_to_json (snd <$> head wb) = [] →
  handleFileSelect (Some f) u
  = show (ToastError "Excel file is empty") (set_chosenFile (Some (name f)) u)
  ∧ importData (handleFileSelect (Some f) u) = importData u
  ∧ ∀ u0 b, importData u0 = [] →
      (importStudents u0 b).2 = b
      ∧ results (importStudents u0 b).1 = results u0
      ∧ ∃ text, toasts (importStudents u0 b).1 = toasts u0 ++ [ToastError text].
Proof.
  intros C E.
  assert (R : handleFileSelect (Some f) u
              = show (ToastError "Excel file is empty")
                     (set_chosenFile (Some (name f)) u)).
  { rewrite handleFileSelect_cases. unfold file_rows. rewrite C, E. done. }
  split; [done|]. split; [by rewrite R|].
  intros u0 b E0.
  destruct (importStudents_not_started u0 b (or_intror E0)) as [m ->].
  simpl. eauto.
Qed.

Lemma empty_sheet_rejected_witness :
  toasts (handleFileSelect (Some sheet_without_rows) (fresh_ui "school-1"))
  = [ToastError "Excel file is empty"].
Proof.
  rewrite (proj1 (empty_sheet_rejected (H := sample_dates) sheet_without_rows
                    [("Students",
                      {| headers := requiredColumns;
                         body := [[None; None; None; None; None]] |})]
                    (fresh_ui "school-1") eq_refl eq_refl)).
  reflexivity.
Defined.

(** ** C7: a failing row does not stop the loop *)


(** What the user is told then; with the same blank in the second row the
    file is loaded and the import fails that row alone. *)
Example blank_cell_first_or_later :
  handleFileSelect (Some first_row_blank_section) (fresh_ui "school-1")
  = {| selectedSchool := "school-1"; importData := []; results := None;
       chosenFile := Some "class10.xlsx";
       toasts := [ToastError "Missing required columns: Section"] |}
  ∧ importData (handleFileSelect (Some second_row_blank_section)
                  (fresh_ui "school-1"))
    = file_rows second_row_blank_section
  ∧ results (importStudents (H := sample_dates)
               (handleFileSelect (Some second_row_blank_section)
                  (fresh_ui "school-1"))
               (empty_backend (Some "user-1"))).1
    = Some {| total := 2; successful := 1; failed := 1;
              errors := ["Row 2: Missing required fields"] |}.
Proof. by vm_compute. Qed.


(** ** One row, evaluated *)

Lemma filled_condition (r : row) :
  negb (truthy (r !! "Student Name")) || negb (truthy (r !! "SRN No"))
  || negb (truthy (r !! "Class")) || negb (truthy (r !! "Section"))
  || negb (truthy (r !! "Date of Birth")) = negb (filled r).
Proof.
  unfold filled, requiredColumns, forallb.
  by repeat destruct (truthy _).
Qed.

Lemma filled_truthy r col : filled r = true → col ∈ requiredColumns →
  truthy (r !! col) = true.
Proof.
  unfold filled. rewrite forallb_forall. intros F I. by apply F, list_elem_of_In.
Qed.

Lemma truthy_toString v : truthy v = true → toString v = ret (template v).
Proof. by destruct v. Qed.

Lemma remote_served b : replies b = [] → remote b = (Value Served, b).
Proof. unfold remote. by intros ->. Qed.

Lemma validateSRN_served srnNo sch b :
  replies b = [] →
  validateSRN srnNo sch b
  = (Value (bool_decide (matching srnNo sch (students b) = [])), b).
Proof.
  intros Q. unfold validateSRN, select_student, await, bind.
  rewrite (remote_served b Q). fold (matching srnNo sch (students b)).
  destruct (matching srnNo sch (students b)) as [|x [|y l]]; simpl; unfold ret;
    by rewrite ?bool_decide_eq_true_2, ?bool_decide_eq_false_2.
Qed.

Lemma insert_student_served s b :
  replies b = [] →
  insert_student s b
  = if key_taken s (students b)
    then (Value (Error unique_violation), b)
    else (Value (Data ()), set_students (students b ++ [s]) b).
Proof.
  intros Q. unfold insert_student, await, bind. by rewrite (remote_served b Q).
Qed.

Lemma getUser_served b : replies b = [] → getUser b = (Value (user b), b).
Proof. intros Q. unfold getUser, bind. by rewrite (remote_served b Q). Qed.

Lemma insert_import_log_served entry b :
  replies b = [] →
  insert_import_log entry b
  = (Value (Data ()), set_import_logs (import_logs b ++ [entry (clock b)]) b).
Proof.
  intros Q. unfold insert_import_log, await, bind. by rewrite (remote_served b Q).
Qed.

Section RowFacts.
Context `{JsDate}.

Lemma importRow_unfilled sch i r t b :
  filled r = false →
  importRow sch i r t b
  = (Value (rowFailed (rowMessage i "Missing required fields") t), b).
Proof.
  intros F. unfold importRow, try_catch. by rewrite filled_condition, F.
Qed.

(** A filled row: the lookup decides, then the date, then the insert. *)
Lemma importRow_filled sch i r t b :
  filled r = true →
  importRow sch i r t b
  = match validateSRN (template (r !! "SRN No")) sch b with
    | (Value false, b1) => (Value (rowFailed (alreadyExists i r) t), b1)
    | (Exception m, b1) => (Value (rowFailed (rowMessage i m) t), b1)
    | (Value true, b1) =>
        match r !! "Date of Birth" ≫= dateOfBirth with
        | None => (Value (rowFailed (rowMessage i
                            "Invalid date format for Date of Birth") t), b1)
        | Some dob =>
            match insert_student (newStudent sch r dob (clock b1)) b1 with
            | (Value (Data _), b2) => (Value (rowImported t), b2)
            | (Value (Error m), b2) => (Value (rowFailed (rowMessage i m) t), b2)
            | (Exception m, b2) => (Value (rowFailed (rowMessage i m) t), b2)
            end
        end
    end.
Proof.
  intros F. unfold importRow, try_catch, bind at 1.
  rewrite filled_condition, F. simpl.
  destruct (validateSRN _ sch b) as [[[]|m] b1]; try done.
  simpl. destruct (_ ≫= dateOfBirth) as [dob|]; [|done].
  rewrite !truthy_toString
    by (apply filled_truthy; [done|]; unfold requiredColumns;
        repeat first [by left | right]).
  unfold bind, ret, now, newStudent.
  destruct (insert_student _ b1) as [[[]|m] b2]; done.
Qed.

(** The same when every call is served. *)
Lemma importRow_served sch i r t b :
  filled r = true → replies b = [] →
  importRow sch i r t b
  = if bool_decide (matching (template (r !! "SRN No")) sch (students b) = [])
    then match r !! "Date of Birth" ≫= dateOfBirth with
         | None => (Value (rowFailed (rowMessage i
                             "Invalid date format for Date of Birth") t), b)
         | Some dob =>
             if key_taken (newStudent sch r dob (clock b)) (students b)
             then (Value (rowFailed (rowMessage i unique_violation) t), b)
             else (Value (rowImported t),
                   set_students
                     (students b ++ [newStudent sch r dob (clock b)]) b)
         end
    else (Value (rowFailed (alreadyExists i r) t), b).
Proof.
  intros F Q. rewrite importRow_filled, validateSRN_served by done.
  case_bool_decide; [|done].
  destruct (_ ≫= dateOfBirth) as [dob|]; [|done].
  rewrite insert_student_served by done. by destruct (key_taken _ _).
Qed.

Lemma importRow_quiet sch i r t b :
  replies b = [] → replies (importRow sch i r t b).2 = [].
Proof.
  intros Q. destruct (filled r) eqn:F.
  - rewrite importRow_served by done. by repeat case_match.
  - by rewrite importRow_unfilled.
Qed.

Lemma importLoop_quiet sch rows : ∀ i t b,
  replies b = [] → replies (importLoop sch i rows t b).2 = [].
Proof.
  induction rows as [|r rows IH]; intros i t b Q; simpl; [done|].
  unfold bind. pose proof (importRow_quiet sch i r t b Q) as Q1.
  destruct (importRow_effect sch i r t b) as (t1 & b1 & E & _).
  rewrite E in *. by apply IH.
Qed.

Lemma importRun_served u b :
  replies b = [] → ∃ t b', importRun u b = (Value t, b').
Proof.
  intros Q. unfold importRun, bind. rewrite (getUser_served b Q).
  pose proof (importLoop_quiet (selectedSchool u) (importData u) 0 tally0 b Q)
    as Q1.
  destruct (importLoop_effect (selectedSchool u) (importData u) 0 tally0 b)
    as (t & b1 & E & _).
  unfold tally0 in *. rewrite E in *. simpl in Q1.
  destruct (user b); [|by eauto].
  rewrite insert_import_log_served by done. by eauto.
Qed.

End RowFacts.

(** ** C1: the counters add up to the number of rows *)

(** C1. Every row of the loop increments exactly one of the two counters
    by one, and an import run ends in one of three ways: it is not started
    (no school chosen or no rows loaded: outcome and store as before), its
    [try] block raises (no outcome), or it shows an outcome whose total is
    the number of loaded rows and whose successful and failed counts add
    up to that total, with one error message per failed row. With a school
    chosen, rows loaded and every call served, it is the outcome that is
    shown. *)
Theorem import_counts_add_up `{JsDate} (u : ui_state) (b : backend) :
  (∀ sch i r t b0, ∃ t' b0',
      importRow sch i r t b0 = (Value t', b0')
      ∧ ((successfulRecords t' = S (successfulRecords t)
          ∧ failedRecords t' = failedRecords t)
         ∨ (successfulRecords t' = successfulRecords t
            ∧ failedRecords t' = S (failedRecords t))))
  ∧ ((results (importStudents u b).1 = results u
      ∧ (importStudents u b).2 = b
      ∧ (selectedSchool u = "" ∨ importData u = []))
     ∨ (results (importStudents u b).1 = None
        ∧ ∃ m, toasts (importStudents u b).1
               = toasts u ++ [ToastError ("Import process failed: " +:+ m)])
     ∨ (∃ o, results (importStudents u b).1 = Some o
             ∧ total o = length (importData u)
             ∧ successful o + failed o = total o
             ∧ length (errors o) = failed o))
  ∧ (selectedSchool u ≠ "" → importData u ≠ [] → replies b = [] →
     ∃ o, results (importStudents u b).1 = Some o
          ∧ total o = length (importData u)
          ∧ successful o + failed o = total o).
Proof.
  split; [|split].
  - intros sch i r t b0.
    destruct (importRow_effect sch i r t b0) as (t' & b0' & E & _ & _ & _ & R).
    exists t', b0'. split; [done|].
    destruct R as [[_ [m ->]]|(s & _ & _ & _ & ->)]; simpl; auto.
  - destruct (decide (selectedSchool u = "")) as [E1|E1];
      [|destruct (decide (importData u = [])) as [E2|E2]].
    + left. destruct (importStudents_not_started u b (or_introl E1)) as [m ->].
      auto.
    + left. destruct (importStudents_not_started u b (or_intror E2)) as [m ->].
      auto.
    + right.
      destruct (importStudents_started u b E1 E2) as (r & b' & _ & Q & _ & R).
      destruct r as [t|m].
      * right. exists (outcome_of u t). split; [done|].
        destruct (run_counts _ _ _ _ Q t eq_refl) as [C1 C2]. simpl. auto.
      * left. rewrite R. simpl. eauto.
  - intros E1 E2 Q.
    destruct (importStudents_started u b E1 E2) as (r & b' & R & Q' & _ & Ro).
    destruct (importRun_served u b Q) as (t & b0 & R0).
    rewrite R0 in R. injection R as <- <-.
    exists (outcome_of u t). split; [done|]. split; [done|].
    by destruct (run_counts _ _ _ _ Q' t eq_refl).
Qed.

(** The scenario of the specification: three rows, the second without a
    name. *)
Example three_rows_one_missing :
  results (importStudents (H := sample_dates) three_rows
             (empty_backend (Some "user-1"))).1
  = Some {| total := 3; successful := 2; failed := 1;
            errors := ["Row 2: Missing required fields"] |}.
Proof. vm_compute. reflexivity. Qed.

Lemma import_counts_add_up_witness :
  ∃ o, results (importStudents (H := sample_dates) three_rows
                  (empty_backend (Some "user-1"))).1 = Some o
       ∧ total o = 3 ∧ successful o + failed o = total o.
Proof.
  apply (proj2 (proj2 (import_counts_add_up (H := sample_dates) three_rows
                         (empty_backend (Some "user-1"))))).
  - discriminate.
  - discriminate.
  - reflexivity.
Defined.

(** ** C10: an error of the lookup is reported as a duplicate *)

(** C10. For a row with its five required cells filled, when the lookup of
    its SRN answers with an error, the row fails with the message
    [Row i: SRN x already exists], the counters move as for any failed row
    and the students table is untouched; it is the very message a row gets
    whose SRN is held by a student of the school. *)
Theorem lookup_error_counts_as_duplicate `{JsDate} (sch : string) (i : nat)
    (r : row) (t : tally) (b : backend) (message : string) (rest : list reply) :
  filled r = true → replies b = Refused message :: rest →
  importRow sch i r t b
  = (Value (rowFailed (alreadyExists i r) t), set_replies rest b)
  ∧ students (importRow sch i r t b).2 = students b
  ∧ ∀ b0 s, replies b0 = [] → s ∈ students b0 →
      srn_no s = template (r !! "SRN No") → school_id s = sch →
      importRow sch i r t b0 = (Value (rowFailed (alreadyExists i r) t), b0).
Proof.
  intros F Q.
  assert (E : importRow sch i r t b
              = (Value (rowFailed (alreadyExists i r) t), set_replies rest b)).
  { rewrite importRow_filled by done.
    unfold validateSRN, select_student, await, bind, remote. by rewrite Q. }
  split; [done|]. split; [by rewrite E|].
  intros b0 s Q0 In E1 E2. rewrite importRow_served by done.
  rewrite bool_decide_eq_false_2; [done|].
  intros N. apply (filter_nil_not_elem_of _ _ s N); [|done]. by split.
Qed.

Lemma lookup_error_counts_as_duplicate_witness :
  importRow (H := sample_dates) "school-1" 0
    (sample_row "Asha" "SRN001" "10" "A" "2005-05-15") tally0
    (set_replies [Refused "FetchError: network"] (empty_backend (Some "user-1")))
  = (Value {| successfulRecords := 0; failedRecords := 1;
              errorsSoFar := ["Row 1: SRN SRN001 already exists"] |},
     empty_backend (Some "user-1")).
Proof.
  rewrite (proj1 (lookup_error_counts_as_duplicate (H := sample_dates)
                    "school-1" 0
                    (sample_row "Asha" "SRN001" "10" "A" "2005-05-15") tally0
                    (set_replies [Refused "FetchError: network"]
                       (empty_backend (Some "user-1")))
                    "FetchError: network" [] eq_refl eq_refl)).
  vm_compute. reflexivity.
Defined.

(** ** C8: the summary log entry *)






(** ** C6: exporting no record *)

(** The admin dashboard can export while no student is listed: the sheet
    then has no header cell. *)
Lemma export_of_nothing_has_no_header :
  ¬ header_row_only admin_labels
      (exportToExcel_admin (H := sample_dates) "2025-09-05" []).
Proof. unfold header_row_only. vm_compute. discriminate. Qed.

Lemma sheet_header_fixed (js : list record_obj) (hdr : list string) :
  Forall (λ o, add_keys hdr (map fst o) = hdr) js →
  fold_left (λ hdr o, add_keys hdr (map fst o)) js hdr = hdr.
Proof.
  induction 1 as [|o js E _ IH]; simpl; [done|]. by rewrite E.
Qed.

Section ExporterFacts.
Context `{JsDate}.

Lemma school_header p s l :
  sheet_header (map (school_record p) (s :: l)) = school_labels.
Proof.
  unfold sheet_header. simpl map. simpl fold_left.
  change (add_keys [] _) with school_labels.
  apply sheet_header_fixed, Forall_forall. by intros o (s' & -> & _)%list_elem_of_fmap.
Qed.

Lemma admin_header sp l :
  sheet_header (map admin_record (sp :: l)) = admin_labels.
Proof.
  unfold sheet_header. simpl map. simpl fold_left.
  replace (add_keys [] _) with admin_labels by by destruct sp.
  apply sheet_header_fixed, Forall_forall.
  by intros o ([s' pl] & -> & _)%list_elem_of_fmap.
Qed.

End ExporterFacts.

(** C6, amended. Exporting the empty collection gives a workbook with the
    single sheet [Students] and no cell in it: no data row and no header
    cell either, since the header is made of the keys of the exported
    records; read back it has no row. As soon as there is a record the
    header row is the fixed list of labels and there is one data row per
    record. *)
Theorem export_of_no_record `{JsDate} (p : userProfile) (today : string) :
  (exportToExcel p today []).2
  = [("Students", {| headers := []; body := [] |})]
  ∧ (exportToExcel_admin today []).2
    = [("Students", {| headers := []; body := [] |})]
  ∧ sheet_to_json (Some {| headers := []; body := [] |}) = []
  ∧ (∀ s l, ∃ ws, (exportToExcel p today (s :: l)).2 = [("Students", ws)]
                  ∧ headers ws = school_labels
                  ∧ length (body ws) = S (length l))
  ∧ (∀ sp l, ∃ ws, (exportToExcel_admin today (sp :: l)).2 = [("Students", ws)]
                   ∧ headers ws = admin_labels
                   ∧ length (body ws) = S (length l)).
Proof.
  repeat split.
  - intros s l. eexists. split; [reflexivity|]. split.
    + apply school_header.
    + cbn [json_to_sheet body]. by rewrite !length_map.
  - intros sp l. eexists. split; [reflexivity|]. split.
    + apply admin_header.
    + cbn [json_to_sheet body]. by rewrite !length_map.
Qed.

(** ** C3: exporting the students of a school and importing them again *)

Lemma validateSRN_existing s b r b' :
  s ∈ students b →
  validateSRN (srn_no s) (school_id s) b = (r, b') → r ≠ Value true.
Proof.
  intros In. unfold validateSRN, select_student, await, bind, remote.
  assert (N : filter (λ s', srn_no s' = srn_no s ∧ school_id s' = school_id s)
                     (students b) ≠ []).
  { intros N. by apply (filter_nil_not_elem_of _ _ s N). }
  destruct (replies b) as [|[] rest]; simpl;
    try (intros [= <- <-]; discriminate).
  - destruct (filter _ (students b)) as [|x [|y l]]; [done| |];
      intros [= <- <-]; discriminate.
  - destruct (filter _ (students b)) as [|x [|y l]]; [done| |];
      intros [= <- <-]; discriminate.
Qed.

Section Reimport.
Context `{JsDate}.

Lemma exported_row_cells p s :
  exported_row p s !! "Student Name" = Some (CStr (student_name s))
  ∧ exported_row p s !! "SRN No" = Some (CStr (srn_no s))
  ∧ exported_row p s !! "Class" = Some (CStr (class s))
  ∧ exported_row p s !! "Section" = Some (CStr (section s))
  ∧ exported_row p s !! "Date of Birth" = Some (CStr (date_of_birth s)).
Proof.
  unfold exported_row. destruct p as [a [x|] [y|]]; repeat split; reflexivity.
Qed.

Lemma exported_row_filled p s : filled (exported_row p s) = complete s.
Proof.
  destruct (exported_row_cells p s) as (E1 & E2 & E3 & E4 & E5).
  unfold filled, requiredColumns, forallb, complete.
  rewrite E1, E2, E3, E4, E5. simpl. by repeat destruct (String.eqb _ _).
Qed.

Lemma exported_row_keys p s col :
  col ∈ requiredColumns → has_key (exported_row p s) col = true.
Proof.
  destruct (exported_row_cells p s) as (E1 & E2 & E3 & E4 & E5).
  unfold requiredColumns, has_key. intros I. apply bool_decide_eq_true_2.
  repeat (apply elem_of_cons in I as [->|I]; [eauto|]).
  by apply elem_of_nil in I.
Qed.

Lemma exported_rows_body p l :
  omap (λ cells, match row_pairs school_labels cells with
                 | [] => None
                 | kvs => Some (list_to_map kvs : row)
                 end)
       (map (λ o, map (obj_get o) school_labels) (map (school_record p) l))
  = map (exported_row p) l.
Proof.
  induction l as [|s l IH]; [done|].
  change (map (school_record p) (s :: l))
    with (school_record p s :: map (school_record p) l).
  change (map (exported_row p) (s :: l))
    with (exported_row p s :: map (exported_row p) l).
  rewrite <- IH. clear IH. unfold exported_row.
  destruct p as [a [x|] [y|]]; reflexivity.
Qed.

(** Export, write, read: the rows the importer gets. *)
Lemma exported_rows p l :
  sheet_to_json (Some (json_to_sheet (map (school_record p) l)))
  = map (exported_row p) l.
Proof.
  destruct l as [|s l]; [done|].
  unfold sheet_to_json, json_to_sheet. cbn [headers body].
  rewrite school_header. apply exported_rows_body.
Qed.

Lemma reimport_loaded p today sch l :
  let w := exportToExcel p today l in
  let u := handleFileSelect (Some {| name := w.1; content := Some w.2 |})
                            (fresh_ui sch) in
  importData u = map (exported_row p) l ∧ selectedSchool u = sch
  ∧ results u = None.
Proof.
  intros w u. subst u. rewrite handleFileSelect_cases.
  assert (R : file_rows {| name := w.1; content := Some w.2 |}
              = map (exported_row p) l) by apply exported_rows.
  rewrite R. cbn [content].
  destruct l as [|s l]; [done|].
  rewrite bool_decide_eq_false_2 by done.
  rewrite bool_decide_eq_true_2; [done|].
  change (default ∅ (head (map (exported_row p) (s :: l))))
    with (exported_row p s).
  destruct (List.filter _ requiredColumns) as [|c cs] eqn:E; [done|].
  assert (In c (c :: cs)) as I by by left.
  rewrite <- E in I. apply filter_In in I as [I K].
  rewrite exported_row_keys in K; [done|]. by apply list_elem_of_In.
Qed.

Lemma reimport_row p s sch i t b :
  s ∈ students b → school_id s = sch →
  ∃ m b', importRow sch i (exported_row p s) t b = (Value (rowFailed m t), b')
          ∧ same_tables b b'.
Proof.
  intros In <-. destruct (filled (exported_row p s)) eqn:F.
  - rewrite importRow_filled by done.
    destruct (exported_row_cells p s) as (_ & -> & _). simpl template.
    destruct (validateSRN _ _ b) as [r b1] eqn:V.
    pose proof (validateSRN_existing s b r b1 In V) as N.
    apply validateSRN_same_tables in V.
    destruct r as [[]|m]; [done| |]; eauto.
  - rewrite importRow_unfilled by done. eexists _, _.
    split; [done|]. apply same_tables_refl.
Qed.

Lemma reimport_loop p sch l : ∀ i t b,
  l ⊆ students b → Forall (λ s, school_id s = sch) l →
  ∃ t' b', importLoop sch i (map (exported_row p) l) t b = (Value t', b')
           ∧ same_tables b b'
           ∧ successfulRecords t' = successfulRecords t
           ∧ failedRecords t' = failedRecords t + length l.
Proof.
  induction l as [|s l IH]; intros i t b Sub All.
  - exists t, b. simpl. split; [done|]. split; [apply same_tables_refl|].
    split; [done|lia].
  - apply Forall_cons in All as [Hs All].
    destruct (reimport_row p s sch i t b) as (m & b1 & E & T1); [set_solver|done|].
    destruct (IH (S i) (rowFailed m t) b1) as (t' & b' & E' & T2 & C1 & C2);
      [|done|].
    { destruct T1 as (-> & _). set_solver. }
    exists t', b'. simpl. unfold bind. rewrite E, E'. split; [done|].
    split; [|simpl in *; split; [done|lia]].
    destruct T1 as (? & ? & ? & ?), T2 as (? & ? & ? & ?).
    repeat split; congruence.
Qed.

Lemma reimport_loop_served p sch l : ∀ i t b,
  replies b = [] → l ⊆ students b → Forall (λ s, school_id s = sch) l →
  importLoop sch i (map (exported_row p) l) t b
  = (Value {| successfulRecords := successfulRecords t;
              failedRecords := failedRecords t + length l;
              errorsSoFar := errorsSoFar t ++ reimportErrors i l |}, b).
Proof.
  induction l as [|s l IH]; intros i t b Q Sub All; simpl.
  - rewrite Nat.add_0_r, app_nil_r. by destruct t.
  - apply Forall_cons in All as [Hs All]. unfold bind.
    assert (E : importRow sch i (exported_row p s) t b
                = (Value (rowFailed (reimportMessage i s) t), b)).
    { unfold reimportMessage. rewrite <- (exported_row_filled p s).
      destruct (filled (exported_row p s)) eqn:F.
      - rewrite importRow_served by done. unfold alreadyExists.
        destruct (exported_row_cells p s) as (_ & -> & _). simpl template.
        rewrite bool_decide_eq_false_2; [done|].
        intros N. apply (filter_nil_not_elem_of _ _ s N); [done|set_solver].
      - by rewrite importRow_unfilled. }
    rewrite E, IH; [|done|set_solver|done]. simpl.
    rewrite <- app_assoc. do 3 f_equal. lia.
Qed.

(** The [try] block of the second import: nothing is added. *)
Lemma reimport_run p (u : ui_state) l b :
  importData u = map (exported_row p) l →
  l ⊆ students b → Forall (λ s, school_id s = selectedSchool u) l →
  students (importRun u b).2 = students b
  ∧ ∀ t, (importRun u b).1 = Value t →
         successfulRecords t = 0 ∧ failedRecords t = length l.
Proof.
  intros D Sub All. unfold importRun, bind.
  destruct (getUser b) as [[who|m] b0] eqn:G;
    apply getUser_effect in G as [(G1 & G2 & G3 & G4) _]; [|done].
  rewrite D.
  destruct (reimport_loop p (selectedSchool u) l 0
              {| successfulRecords := 0; failedRecords := 0; errorsSoFar := [] |}
              b0) as (t & b1 & -> & (T1 & T2 & T3 & T4) & C1 & C2);
    [by rewrite G1|done|].
  simpl in C1, C2.
  destruct who as [id|].
  - destruct (insert_import_log _ b1) as [[x|e] b2] eqn:I;
      apply insert_import_log_effect in I as (I1 & _); simpl.
    + split; [congruence|]. by intros t0 [= <-].
    + split; [congruence|]. done.
  - simpl. split; [congruence|]. by intros t0 [= <-].
Qed.

End Reimport.

Lemma reimportErrors_complete l : ∀ i,
  Forall (λ s, complete s = true) l → reimportErrors i l = duplicateErrors i l.
Proof.
  induction l as [|s l IH]; intros i All; [done|].
  apply Forall_cons in All as [C All]. simpl.
  unfold reimportMessage. by rewrite C, IH.
Qed.

(** Exported and imported again, the second student is turned down for a
    missing field, not as a duplicate. *)
Lemma reimport_blank_name_not_duplicate :
  ¬ reimport_all_duplicates (H := sample_dates) school_one "2025-09-06"
      "school-1" (students blank_name_store) blank_name_store.
Proof.
  intros (_ & o & R & _ & E).
  vm_compute in R. injection R as <-. vm_compute in E. discriminate.
Qed.

(** C3, amended. Let [l] be students held by the store under school [sch].
    Exporting [l] from the school dashboard and importing the written file
    into [sch] inserts nothing, whatever the backend replies: the students
    table is as before and an outcome, when one is shown, counts every row
    as failed. When every call is served the outcome is shown and row [i]
    carries [SRN x already exists] if the five required columns of the
    student hold text, [Missing required fields] otherwise; so every row is
    a duplicate exactly when all exported students are complete. *)
Theorem reimport_inserts_nothing `{JsDate} (p : userProfile)
    (today sch : string) (l : list student) (b : backend) :
  l ⊆ students b → Forall (λ s, school_id s = sch) l →
  students (reimport p today sch l b).2 = students b
  ∧ (∀ o, results (reimport p today sch l b).1 = Some o →
          total o = length l ∧ successful o = 0 ∧ failed o = length l)
  ∧ (l ≠ [] → sch ≠ "" → replies b = [] →
     results (reimport p today sch l b).1
     = Some {| total := length l; successful := 0; failed := length l;
               errors := reimportErrors 0 l |})
  ∧ (Forall (λ s, complete s = true) l →
     reimportErrors 0 l = duplicateErrors 0 l).
Proof.
  intros Sub All. unfold reimport.
  destruct (reimport_loaded p today sch l) as (D & Ssch & R0).
  set (u := handleFileSelect _ (fresh_ui sch)) in *.
  assert (Len : length (importData u) = length l) by by rewrite D, length_map.
  split; [|split; [|split]].
  - destruct (decide (selectedSchool u = "")) as [E1|E1];
      [|destruct (decide (importData u = [])) as [E2|E2]].
    + by destruct (importStudents_not_started u b (or_introl E1)) as [m ->].
    + by destruct (importStudents_not_started u b (or_intror E2)) as [m ->].
    + destruct (importStudents_started u b E1 E2) as (r & b' & R & _ & -> & _).
      rewrite <- Ssch in All.
      destruct (reimport_run p u l b D Sub All) as [St _]. by rewrite R in St.
  - intros o Ro.
    destruct (decide (selectedSchool u = "")) as [E1|E1];
      [|destruct (decide (importData u = [])) as [E2|E2]].
    + destruct (importStudents_not_started u b (or_introl E1)) as [m E].
      rewrite E in Ro. simpl in Ro. congruence.
    + destruct (importStudents_not_started u b (or_intror E2)) as [m E].
      rewrite E in Ro. simpl in Ro. congruence.
    + destruct (importStudents_started u b E1 E2) as (r & b' & R & _ & _ & Q).
      rewrite <- Ssch in All.
      destruct (reimport_run p u l b D Sub All) as [_ Ct]. rewrite R in Ct.
      destruct r as [t|m].
      * rewrite Q in Ro. injection Ro as <-. simpl.
        destruct (Ct t eq_refl) as [-> ->]. done.
      * rewrite Q in Ro. simpl in Ro. congruence.
  - intros Nl Ns Q.
    assert (E1 : selectedSchool u ≠ "") by by rewrite Ssch.
    assert (E2 : importData u ≠ []).
    { rewrite D. by destruct l. }
    destruct (importStudents_started u b E1 E2) as (r & b' & R & _ & _ & Ro).
    assert (R' : (importRun u b).1
                 = Value {| successfulRecords := 0; failedRecords := length l;
                            errorsSoFar := reimportErrors 0 l |}).
    { unfold importRun, bind. rewrite (getUser_served b Q), D, Ssch.
      rewrite reimport_loop_served by done. simpl.
      destruct (user b); [|done].
      by rewrite insert_import_log_served. }
    rewrite R in R'. simpl in R'. subst r. rewrite Ro.
    unfold outcome_of. simpl. by rewrite Len.
  - apply reimportErrors_complete.
Qed.

Lemma reimport_inserts_nothing_witness :
  students (reimport (H := sample_dates) school_one "2025-09-06" "school-1"
              (students blank_name_store) blank_name_store).2
  = students blank_name_store
  ∧ results (reimport (H := sample_dates) school_one "2025-09-06" "school-1"
               (students blank_name_store) blank_name_store).1
    = Some {| total := 2; successful := 0; failed := 2;
              errors := ["Row 1: SRN SRN001 already exists";
                         "Row 2: Missing required fields"] |}.
Proof.
  assert (A : Forall (λ s, school_id s = "school-1") (students blank_name_store))
    by (vm_compute; repeat constructor).
  pose proof (reimport_inserts_nothing (H := sample_dates) school_one
                "2025-09-06" "school-1" (students blank_name_store)
                blank_name_store (reflexivity _) A) as (T1 & _ & T3 & _).
  split; [exact T1|].
  rewrite T3; [vm_compute; reflexivity|vm_compute; discriminate|discriminate|].
  vm_compute. reflexivity.
Defined.

(** ** C5: two rows with the same external id *)



Example class_zero_second_row_wins :
  results (importTwo (H := sample_dates) "school-1" row_class_zero
             (sample_row "Ravi" "SRN001" "10" "B" "2006-01-02")
             (empty_backend (Some "user-1"))).1
  = Some {| total := 2; successful := 1; failed := 1;
            errors := ["Row 1: Missing required fields"] |}
  ∧ map student_name
        (students (importTwo (H := sample_dates) "school-1" row_class_zero
                     (sample_row "Ravi" "SRN001" "10" "B" "2006-01-02")
                     (empty_backend (Some "user-1"))).2) = ["Ravi"].
Proof. split; vm_compute; reflexivity. Qed.



(** The lookup is made with the cell as it is read, the insert with the
    trimmed text. With a blank before the SRN of both rows the lookup of
    the second row misses the student the first row left, and the row is
    only stopped by the constraint of the table. *)
Example padded_srn_passes_the_lookup :
  results (importTwo (H := sample_dates) "school-1"
             (sample_row "Asha" " SRN001" "10" "A" "2005-05-15")
             (sample_row "Ravi" " SRN001" "10" "B" "2006-01-02")
             (empty_backend (Some "user-1"))).1
  = Some {| total := 2; successful := 1; failed := 1;
            errors := ["Row 2: " +:+ unique_violation] |}.
Proof. vm_compute. reflexivity. Qed.

(** The same with a no-break space (U+00A0) before the SRN, which [trim]
    removes as any other white space: the first row is stored under
    [SRN001], and such a cell is not one written without white space. *)
Example no_break_space_srn_passes_the_lookup :
  results (importTwo (H := sample_dates) "school-1"
             (sample_row "Asha" (no_break_space +:+ "SRN001") "10" "A"
                "2005-05-15")
             (sample_row "Ravi" (no_break_space +:+ "SRN001") "10" "B"
                "2006-01-02")
             (empty_backend (Some "user-1"))).1
  = Some {| total := 2; successful := 1; failed := 1;
            errors := ["Row 2: " +:+ unique_violation] |}
  ∧ map srn_no
      (students (importTwo (H := sample_dates) "school-1"
                   (sample_row "Asha" (no_break_space +:+ "SRN001") "10" "A"
                      "2005-05-15")
                   (sample_row "Ravi" (no_break_space +:+ "SRN001") "10" "B"
                      "2006-01-02")
                   (empty_backend (Some "user-1"))).2) = ["SRN001"]
  ∧ trim (no_break_space +:+ "SRN001") ≠ no_break_space +:+ "SRN001".
Proof. split; [|split]; [by vm_compute..|]. vm_compute. discriminate. Qed.

(** * Further properties of the importer *)

(** ** Texts and their trimming *)

Lemma append_cons a s t : String a s +:+ t = String a (s +:+ t).
Proof. reflexivity. Qed.

Lemma append_assoc s1 s2 s3 : s1 +:+ (s2 +:+ s3) = (s1 +:+ s2) +:+ s3.
Proof.
  induction s1 as [|a s1 IH]; [done|]. by rewrite !append_cons, IH.
Qed.

Lemma append_empty_r s : s +:+ "" = s.
Proof. induction s as [|a s IH]; [done|]. by rewrite append_cons, IH. Qed.

Lemma rev_app_append s1 : ∀ s2,
  String.rev_app s1 s2 = String.rev s1 +:+ s2.
Proof.
  unfold String.rev. induction s1 as [|a s1 IH]; intros s2; simpl; [done|].
  rewrite IH, (IH (String a "")). by rewrite <- append_assoc.
Qed.

Lemma rev_cons a s : String.rev (String a s) = String.rev s +:+ String a "".
Proof. unfold String.rev at 1. simpl. apply rev_app_append. Qed.

Lemma rev_append s1 s2 :
  String.rev (s1 +:+ s2) = String.rev s2 +:+ String.rev s1.
Proof.
  induction s1 as [|a s1 IH].
  - by rewrite append_empty_r.
  - by rewrite append_cons, !rev_cons, IH, append_assoc.
Qed.

Lemma rev_rev s : String.rev (String.rev s) = s.
Proof.
  induction s as [|a s IH]; [done|]. by rewrite rev_cons, rev_append, IH.
Qed.

Section DropSpaces.
Variable sp2 : ascii → ascii → bool.
Variable sp3 : ascii → ascii → ascii → bool.

Lemma drop_spaces_leading s :
  drop_spaces sp2 sp3 s
  = match leading sp2 sp3 s with
    | Some r => drop_spaces sp2 sp3 r
    | None => s
    end.
Proof.
  destruct s as [|a [|b [|c s]]]; simpl; [done|..];
    destruct (Ascii.is_space a); try done;
    destruct (sp2 a b); try done; by destruct (sp3 a b c).
Qed.

Lemma leading_shorter s r :
  leading sp2 sp3 s = Some r → String.length r < String.length s.
Proof.
  destruct s as [|a [|b [|c s]]]; simpl; [done|..];
    destruct (Ascii.is_space a); try (intros [= <-]; simpl; lia);
    try done; destruct (sp2 a b); try (intros [= <-]; simpl; lia);
    destruct (sp3 a b c); try done; intros [= <-]; simpl; lia.
Qed.

Lemma leading_suffix s r :
  leading sp2 sp3 s = Some r → ∃ q, s = q +:+ r.
Proof.
  destruct s as [|a [|b [|c s]]]; simpl; [done|..];
    destruct (Ascii.is_space a);
    try (intros [= <-]; by exists (String a ""));
    try done; destruct (sp2 a b);
    try (intros [= <-]; by exists (String a (String b "")));
    destruct (sp3 a b c); try done;
    intros [= <-]; by exists (String a (String b (String c ""))).
Qed.

Lemma leading_prefix p q :
  leading sp2 sp3 (p +:+ q) = None → leading sp2 sp3 p = None.
Proof.
  destruct p as [|a [|b [|c p]]]; rewrite ?append_cons; simpl; [done|..];
    (destruct (Ascii.is_space a); [done|]); try done;
    (destruct (sp2 a b); [done|]); try done;
    by destruct (sp3 a b c).
Qed.

Lemma by_length (P : string → Prop) :
  (∀ s, (∀ r, String.length r < String.length s → P r) → P s) → ∀ s, P s.
Proof.
  intros step s. remember (String.length s) as n eqn:E. revert s E.
  induction n as [n IH] using lt_wf_ind. intros s ->.
  apply step. intros r L. by apply (IH _ L).
Qed.

Lemma drop_spaces_suffix s : ∃ q, s = q +:+ drop_spaces sp2 sp3 s.
Proof.
  induction s as [s IH] using by_length. rewrite drop_spaces_leading.
  destruct (leading sp2 sp3 s) as [r|] eqn:L; [|by exists ""].
  destruct (leading_suffix _ _ L) as [q ->].
  destruct (IH r (leading_shorter _ _ L)) as [q' E].
  exists (q +:+ q'). by rewrite <- append_assoc, <- E.
Qed.

Lemma drop_spaces_clean s :
  leading sp2 sp3 (drop_spaces sp2 sp3 s) = None.
Proof.
  induction s as [s IH] using by_length. rewrite drop_spaces_leading.
  destruct (leading sp2 sp3 s) as [r|] eqn:L; [|done].
  apply IH, (leading_shorter _ _ L).
Qed.

Lemma drop_spaces_id s :
  leading sp2 sp3 s = None → drop_spaces sp2 sp3 s = s.
Proof. intros L. by rewrite drop_spaces_leading, L. Qed.

End DropSpaces.

(** Trimming a trimmed text changes nothing. *)
Lemma trim_trim s : trim (trim s) = trim s.
Proof.
  unfold trim, trim_end, trim_start.
  set (T := drop_spaces space2 space3).
  set (E := drop_spaces _ _). set (a := T s). set (b := E (String.rev a)).
  assert (R : T (String.rev b) = String.rev b).
  { apply drop_spaces_id.
    destruct (drop_spaces_suffix (λ a b, space2 b a) (λ a b c, space3 c b a)
                (String.rev a)) as [q Q].
    fold E in Q. fold b in Q.
    apply (f_equal String.rev) in Q. rewrite rev_rev, rev_append in Q.
    apply (leading_prefix _ _ _ (String.rev q)). rewrite <- Q.
    apply drop_spaces_clean. }
  rewrite R, rev_rev. f_equal. apply drop_spaces_id, drop_spaces_clean.
Qed.

(** White space outside ASCII is trimmed as well. *)
Example trim_no_break_space :
  trim (no_break_space +:+ "SRN001" +:+ byte_order_mark +:+ " ") = "SRN001"
  ∧ trim no_break_space = "".
Proof. by vm_compute. Qed.

(** ** The rows that fail and the students that are added *)

Section ImportAccounting.
Context `{JsDate}.

Lemma newStudent_shape sch r dob stamp :
  imported_shape sch (newStudent sch r dob stamp).
Proof. unfold imported_shape. simpl. by rewrite !trim_trim. Qed.

(** One row: it is counted as imported and its student appended, or it
    fails with a message that starts with its number and the table stays. *)
Lemma importRow_account sch i r t b :
  ∃ b', (importRow sch i r t b = (Value (rowImported t), b')
         ∧ ∃ s, built_from sch r s ∧ students b' = students b ++ [s])
        ∨ (∃ text, importRow sch i r t b
                   = (Value (rowFailed (rowMessage i text) t), b'))
          ∧ students b' = students b.
Proof.
  destruct (filled r) eqn:F.
  - rewrite importRow_filled by done. unfold alreadyExists.
    destruct (validateSRN _ sch b) as [[[]|m] b1] eqn:V;
      apply validateSRN_same_tables in V as (V1 & _); [|by eauto..].
    destruct (_ ≫= dateOfBirth) as [dob|] eqn:D; [|by eauto].
    destruct (insert_student _ b1) as [x b2] eqn:I.
    apply insert_student_effect in I as (_ & _ & _ & I).
    exists b2. destruct I as [[I N]|(_ & I & ->)].
    + right. rewrite I, V1. destruct x as [[[]|m]|m]; by eauto.
    + left. split; [done|]. eexists. split; [by eexists _, _|].
      by rewrite I, V1.
  - rewrite importRow_unfilled by done. by eauto.
Qed.

(** The loop from row [i] on: the messages it adds are those of the failed
    rows in file order, the students it adds come from rows of the file. *)
Lemma importLoop_account sch rows : ∀ i t b,
  ∃ t' b' fails added,
    importLoop sch i rows t b = (Value t', b')
    ∧ errorsSoFar t' = errorsSoFar t ++ rowMessages fails
    ∧ StronglySorted lt fails.*1
    ∧ Forall (λ j, i ≤ j < i + length rows) fails.*1
    ∧ students b' = students b ++ added
    ∧ Forall (λ s, ∃ r, r ∈ rows ∧ built_from sch r s) added
    ∧ successfulRecords t' = successfulRecords t + length added.
Proof.
  induction rows as [|r rows IH]; intros i t b.
  - exists t, b, [], []. simpl. rewrite !app_nil_r.
    repeat split; auto; constructor.
  - simpl. unfold bind.
    destruct (importRow_account sch i r t b)
      as (b1 & [(E & s & Bs & S1)|((text & E) & S1)]); rewrite E.
    + destruct (IH (S i) (rowImported t) b1)
        as (t' & b' & fails & added & -> & Er & So & Bo & St & Bu & Su).
      exists t', b', fails, (s :: added). simpl in *.
      split; [done|]. split; [done|]. split; [done|].
      split. { eapply Forall_impl; [done|]. simpl. lia. }
      split. { by rewrite St, S1, <- app_assoc. }
      split; [|lia].
      constructor; [exists r; split; [by left|done]|].
      eapply Forall_impl; [done|]. intros s' (r' & In & Bs').
      exists r'. split; [by right|done].
    + destruct (IH (S i) (rowFailed (rowMessage i text) t) b1)
        as (t' & b' & fails & added & -> & Er & So & Bo & St & Bu & Su).
      exists t', b', ((i, text) :: fails), added. simpl in *.
      split; [done|]. split. { by rewrite Er, <- app_assoc. }
      split. { constructor; [done|]. eapply Forall_impl; [done|]. simpl. lia. }
      split. { constructor; [lia|]. eapply Forall_impl; [done|]. simpl. lia. }
      split. { by rewrite St, S1. }
      split; [|done].
      eapply Forall_impl; [done|]. intros s' (r' & In & Bs').
      exists r'. split; [by right|done].
Qed.

Lemma append_inv_head s x y : s +:+ x = s +:+ y → x = y.
Proof.
  induction s as [|a s IH]; [done|]. rewrite !append_cons. intros [= E]. auto.
Qed.

Lemma rowMessage_inj i x y : rowMessage i x = rowMessage i y → x = y.
Proof.
  unfold rowMessage. by intros E%append_inv_head%append_inv_head%append_inv_head.
Qed.

Lemma rowFailed_inj m m' t : rowFailed m t = rowFailed m' t → m = m'.
Proof. intros [= E]. by apply app_inv_head in E as [= ->]. Qed.

Lemma rowImported_not_failed m t : rowImported t ≠ rowFailed m t.
Proof. intros [= E1 E2 E3]. lia. Qed.

(** The loop from row [i] on, row by row: the row at place [length pre]
    has a message among those the loop adds exactly when it failed in the
    tally and the store the rows before it left, and the text is the one
    it failed with. *)
Lemma importLoop_fails sch rows : ∀ i t b,
  ∃ t' b' fails,
    importLoop sch i rows t b = (Value t', b')
    ∧ errorsSoFar t' = errorsSoFar t ++ rowMessages fails
    ∧ StronglySorted lt fails.*1
    ∧ Forall (λ j, i ≤ j < i + length rows) fails.*1
    ∧ ∀ pre r post, rows = pre ++ r :: post →
        ∃ t1 b1,
          importLoop sch i pre t b = (Value t1, b1)
          ∧ ∀ text,
              (i + length pre, text) ∈ fails
              ↔ ∃ b2, importRow sch (i + length pre) r t1 b1
                      = (Value (rowFailed (rowMessage (i + length pre) text) t1),
                         b2).
Proof.
  induction rows as [|r0 rows IH]; intros i t b.
  - exists t, b, []. simpl. rewrite app_nil_r.
    repeat split; auto; try constructor.
    intros pre r post E. by destruct pre.
  - simpl. unfold bind.
    destruct (importRow_account sch i r0 t b)
      as (b1 & [(E & _)|((text0 & E) & _)]); rewrite E.
    + destruct (IH (S i) (rowImported t) b1)
        as (t' & b' & fails & -> & Er & So & Bo & Tie).
      exists t', b', fails. simpl in *.
      split; [done|]. split; [done|]. split; [done|].
      split. { eapply Forall_impl; [done|]. simpl. lia. }
      intros [|r1 pre] r post [= <- ->]; simpl.
      * exists t, b. split; [done|]. rewrite Nat.add_0_r. intros text. split.
        -- intros In. apply (list_elem_of_fmap_2 fst) in In. simpl in In.
           rewrite Forall_forall in Bo. apply Bo in In. lia.
        -- intros [b2 E2]. rewrite E in E2.
           assert (rowImported t = rowFailed (rowMessage i text) t) as E3
             by congruence.
           by apply rowImported_not_failed in E3.
      * destruct (Tie pre r post eq_refl) as (t1 & b2 & E1 & T1).
        exists t1, b2. unfold bind. rewrite E. split; [done|].
        by rewrite Nat.add_succ_r.
    + destruct (IH (S i) (rowFailed (rowMessage i text0) t) b1)
        as (t' & b' & fails & -> & Er & So & Bo & Tie).
      exists t', b', ((i, text0) :: fails). simpl in *.
      split; [done|]. split. { by rewrite Er, <- app_assoc. }
      split. { constructor; [done|]. eapply Forall_impl; [done|]. simpl. lia. }
      split. { constructor; [lia|]. eapply Forall_impl; [done|]. simpl. lia. }
      intros [|r1 pre] r post [= <- ->]; simpl.
      * exists t, b. split; [done|]. rewrite Nat.add_0_r. intros text. split.
        -- intros [[= <-]|In]%elem_of_cons; [by exists b1|].
           apply (list_elem_of_fmap_2 fst) in In. simpl in In.
           rewrite Forall_forall in Bo. apply Bo in In. lia.
        -- intros [b2 E2]. rewrite E in E2.
           assert (rowFailed (rowMessage i text0) t
                   = rowFailed (rowMessage i text) t) as E3 by congruence.
           apply rowFailed_inj, rowMessage_inj in E3 as ->. by left.
      * destruct (Tie pre r post eq_refl) as (t1 & b2 & E1 & T1).
        exists t1, b2. unfold bind. rewrite E. split; [done|].
        intros text. rewrite Nat.add_succ_r. simpl in T1.
        rewrite <- (T1 text). split.
        -- intros [[= E0 _]|In]%elem_of_cons; [lia|done].
        -- by right.
Qed.

(** A run that returns has gone through the user call and the loop. *)
Lemma importRun_value u b t b' :
  importRun u b = (Value t, b') →
  ∃ b1, importLoop (selectedSchool u) 0 (importData u) tally0 (getUser b).2
        = (Value t, b1).
Proof.
  unfold importRun, bind.
  destruct (getUser b) as [[who|m] b0]; [|done]. simpl.
  destruct (importLoop _ _ _ _ b0) as [[t1|m] b1]; [|done].
  exists b1. destruct who as [id|].
  - destruct (insert_import_log _ b1) as [[x|e] b2]; [|done].
    unfold ret in *. congruence.
  - unfold ret in *. congruence.
Qed.

(** The same for the [try] block, whatever way it ends. *)
Lemma importRun_account u b :
  ∃ fails added,
    StronglySorted lt fails.*1
    ∧ Forall (λ j, j < length (importData u)) fails.*1
    ∧ students (importRun u b).2 = students b ++ added
    ∧ Forall (λ s, ∃ r, r ∈ importData u ∧ built_from (selectedSchool u) r s)
             added
    ∧ ∀ t, (importRun u b).1 = Value t →
           errorsSoFar t = rowMessages fails
           ∧ successfulRecords t = length added.
Proof.
  unfold importRun, bind.
  destruct (getUser b) as [[who|m] b0] eqn:G;
    apply getUser_effect in G as [(G1 & _) _].
  - destruct (importLoop_account (selectedSchool u) (importData u) 0
                {| successfulRecords := 0; failedRecords := 0;
                   errorsSoFar := [] |} b0)
      as (t & b1 & fails & added & -> & Er & So & Bo & St & Bu & Su).
    exists fails, added. simpl in *. rewrite G1 in St.
    split; [done|].
    split. { eapply Forall_impl; [done|]. simpl. lia. }
    destruct who as [id|]; simpl.
    + destruct (insert_import_log _ b1) as [[x|e] b2] eqn:I;
        apply insert_import_log_effect in I as (I1 & _); simpl;
        (split; [congruence|]); (split; [done|]); [|done].
      by intros t0 [= <-].
    + split; [done|]. split; [done|]. by intros t0 [= <-].
  - exists [], []. simpl. rewrite app_nil_r.
    split; [apply SSorted_nil|]. split; [apply Forall_nil_2|].
    split; [done|]. split; [apply Forall_nil_2|]. done.
Qed.

End ImportAccounting.

(** X1. The error messages of an outcome are those of the failed rows in
    file order: each starts with the number of its row (counted from 1, so
    [rowMessage j] for the row of index [j]), the indices increase strictly
    and stay below the total, and there is one message per failed row. A
    message belongs to the row whose number it carries: the row at place
    [length pre] of the file has a message in the list exactly when its
    turn in the loop, taken in the tally and the store the rows before it
    left, ended in a failure, and the text is the one it failed with. *)
Theorem errors_follow_the_rows `{JsDate} (u : ui_state) (b : backend)
    (o : outcome) :
  selectedSchool u ≠ "" → importData u ≠ [] →
  results (importStudents u b).1 = Some o →
  ∃ fails, errors o = rowMessages fails
           ∧ StronglySorted lt fails.*1
           ∧ Forall (λ j, j < total o) fails.*1
           ∧ length fails = failed o
           ∧ ∀ pre r post, importData u = pre ++ r :: post →
               ∃ t1 b1,
                 importLoop (selectedSchool u) 0 pre tally0 (getUser b).2
                 = (Value t1, b1)
                 ∧ ∀ text,
                     (length pre, text) ∈ fails
                     ↔ ∃ b2, importRow (selectedSchool u) (length pre) r t1 b1
                             = (Value (rowFailed (rowMessage (length pre) text)
                                         t1), b2).
Proof.
  intros E1 E2 Ro.
  destruct (importStudents_started u b E1 E2) as (r & b' & R & Q & _ & Ro').
  destruct r as [t|m]; [|by rewrite Ro' in Ro].
  rewrite Ro' in Ro. injection Ro as <-. simpl.
  destruct (importRun_value u b t b' R) as [b1 L].
  destruct (importLoop_fails (selectedSchool u) (importData u) 0 tally0
              (getUser b).2) as (t' & b1' & fails & L' & Er & So & Bo & Tie).
  rewrite L in L'. injection L' as <- <-. simpl in Er.
  exists fails. split; [done|]. split; [done|].
  split. { eapply Forall_impl; [done|]. simpl. lia. }
  split.
  { destruct (run_counts _ _ _ _ Q t eq_refl) as [_ <-].
    rewrite Er. unfold rowMessages. by rewrite length_map. }
  intros pre r post D. apply (Tie pre r post D).
Qed.

Lemma errors_follow_the_rows_witness :
  ∃ fails, ["Row 2: Missing required fields"] = rowMessages fails
           ∧ StronglySorted lt fails.*1
           ∧ (1, "Missing required fields") ∈ fails.
Proof.
  destruct (errors_follow_the_rows (H := sample_dates) three_rows
              (empty_backend (Some "user-1"))
              {| total := 3; successful := 2; failed := 1;
                 errors := ["Row 2: Missing required fields"] |})
    as (fails & E & So & _ & _ & Tie);
    [discriminate|discriminate|by vm_compute|].
  exists fails. split; [done|]. split; [done|].
  destruct (Tie [sample_row "Asha" "SRN001" "10" "A" "2005-05-15"]
              (sample_row "" "SRN002" "10" "A" "2005-03-20")
              [sample_row "Ravi" "SRN003" "10" "B" "2006-01-02"] eq_refl)
    as (t1 & b1 & L & T).
  apply T. vm_compute in L. injection L as <- <-.
  eexists. vm_compute. reflexivity.
Defined.

(** X2. When a run shows an outcome, its successful count is the number of
    students the run appended to the table; the students that were there
    stay, in place. *)
Theorem success_count_is_number_inserted `{JsDate} (u : ui_state)
    (b : backend) (o : outcome) :
  selectedSchool u ≠ "" → importData u ≠ [] →
  results (importStudents u b).1 = Some o →
  ∃ added, students (importStudents u b).2 = students b ++ added
           ∧ length added = successful o.
Proof.
  intros E1 E2 Ro.
  destruct (importStudents_started u b E1 E2) as (r & b' & R & Q & -> & Ro').
  destruct (run_students _ _ _ _ Q) as (added & St & _ & Su).
  destruct r as [t|m]; [|by rewrite Ro' in Ro].
  rewrite Ro' in Ro. injection Ro as <-. simpl.
  exists added. split; [done|]. by rewrite (Su t eq_refl).
Qed.

Lemma success_count_is_number_inserted_witness :
  ∃ added, students (importStudents (H := sample_dates) three_rows
                       (empty_backend (Some "user-1"))).2 = [] ++ added
           ∧ length added = 2.
Proof.
  apply (success_count_is_number_inserted (H := sample_dates) three_rows
           (empty_backend (Some "user-1"))
           {| total := 3; successful := 2; failed := 1;
              errors := ["Row 2: Missing required fields"] |});
    [discriminate|discriminate|].
  vm_compute. reflexivity.
Defined.

(** X3. Whatever the file and the replies of the backend, every student
    an import appends is built from a row of the loaded file whose date
    parsed: it is stored under the selected school, with name, SRN, class
    and section trimmed (trimming them again changes nothing), without
    photo and with a registration date. *)
Theorem inserted_students_are_normalised `{JsDate} (u : ui_state)
    (b : backend) :
  ∃ added, students (importStudents u b).2 = students b ++ added
           ∧ Forall (imported_shape (selectedSchool u)) added
           ∧ Forall (λ s, ∃ r, r ∈ importData u
                               ∧ built_from (selectedSchool u) r s) added.
Proof.
  destruct (decide (selectedSchool u = "")) as [E1|E1];
    [|destruct (decide (importData u = [])) as [E2|E2]].
  - destruct (importStudents_not_started u b (or_introl E1)) as [m ->].
    exists []. by rewrite app_nil_r.
  - destruct (importStudents_not_started u b (or_intror E2)) as [m ->].
    exists []. by rewrite app_nil_r.
  - destruct (importStudents_started u b E1 E2) as (r & b' & R & _ & -> & _).
    destruct (importRun_account u b) as (fails & added & _ & _ & St & Bu & _).
    rewrite R in St. exists added. split; [done|]. split; [|done].
    eapply Forall_impl; [done|]. intros s (r0 & _ & dob & stamp & _ & ->).
    apply newStudent_shape.
Qed.

(** ** Importing the same file again *)

Section SecondImport.
Context `{JsDate}.

Lemma matching_app srnNo sch l1 l2 :
  matching srnNo sch (l1 ++ l2) = matching srnNo sch l1 ++ matching srnNo sch l2.
Proof. apply filter_app. Qed.

Lemma blocked_more sch l l' r : blocked sch l r → blocked sch (l ++ l') r.
Proof.
  intros [F|[M|[D|(s & In & E1 & E2)]]].
  - by left.
  - right; left. rewrite matching_app. by destruct (matching _ sch l).
  - right; right; by left.
  - right; right; right. exists s. split; [set_solver|done].
Qed.

(** A served row is blocked in the table it leaves. *)
Lemma importRow_blocks sch i r t b :
  replies b = [] →
  blocked sch (students (importRow sch i r t b).2) r
  ∧ ∃ added, students (importRow sch i r t b).2 = students b ++ added.
Proof.
  intros Q. destruct (filled r) eqn:F.
  - rewrite importRow_served by done. case_bool_decide as M.
    + destruct (_ ≫= dateOfBirth) as [dob|] eqn:D.
      * destruct (key_taken _ (students b)) eqn:K; simpl.
        -- split; [|exists []; by rewrite app_nil_r].
           right; right; right.
           apply bool_decide_eq_true in K as (s & In & E1 & E2)%Exists_exists.
           by exists s.
        -- split; [|by eexists]. right; right; right.
           exists (newStudent sch r dob (clock b)). split; [set_solver|done].
      * simpl. split; [|exists []; by rewrite app_nil_r]. right; right; by left.
    + simpl. split; [|exists []; by rewrite app_nil_r]. right; by left.
  - rewrite importRow_unfilled by done. simpl.
    split; [by left|exists []; by rewrite app_nil_r].
Qed.

(** A blocked row fails and leaves the backend as it is. *)
Lemma blocked_row_fails sch i r t b :
  replies b = [] → blocked sch (students b) r →
  ∃ m, importRow sch i r t b = (Value (rowFailed m t), b).
Proof.
  intros Q B. destruct (filled r) eqn:F.
  - rewrite importRow_served by done. case_bool_decide as M; [|by eauto].
    destruct (_ ≫= dateOfBirth) as [dob|] eqn:D; [|by eauto].
    destruct B as [B|[B|[B|(s & In & E1 & E2)]]];
      [congruence|done|congruence|].
    assert (K : key_taken (newStudent sch r dob (clock b)) (students b) = true).
    { apply bool_decide_eq_true_2, Exists_exists. exists s. by split. }
    rewrite K. by eauto.
  - rewrite importRow_unfilled by done. by eauto.
Qed.

Lemma importLoop_blocks sch rows : ∀ i t b,
  replies b = [] →
  Forall (blocked sch (students (importLoop sch i rows t b).2)) rows
  ∧ ∃ added, students (importLoop sch i rows t b).2 = students b ++ added.
Proof.
  induction rows as [|r rows IH]; intros i t b Q; simpl.
  - split; [done|]. exists []. by rewrite app_nil_r.
  - unfold bind.
    destruct (importRow_blocks sch i r t b Q) as [B1 [a1 S1]].
    pose proof (importRow_quiet sch i r t b Q) as Q1.
    destruct (importRow_effect sch i r t b) as (t1 & b1 & E & _).
    rewrite E in *. simpl in B1, S1, Q1.
    destruct (IH (S i) t1 b1 Q1) as [B2 [a2 S2]].
    split.
    + constructor; [|done]. rewrite S2. by apply blocked_more.
    + exists (a1 ++ a2). by rewrite S2, S1, <- app_assoc.
Qed.

Lemma blocked_loop_fails sch rows : ∀ i t b,
  replies b = [] → Forall (blocked sch (students b)) rows →
  ∃ t', importLoop sch i rows t b = (Value t', b)
        ∧ successfulRecords t' = successfulRecords t
        ∧ failedRecords t' = failedRecords t + length rows.
Proof.
  induction rows as [|r rows IH]; intros i t b Q B; simpl.
  - exists t. split; [done|]. split; [done|lia].
  - apply Forall_cons in B as [B1 B]. unfold bind.
    destruct (blocked_row_fails sch i r t b Q B1) as [m ->].
    destruct (IH (S i) (rowFailed m t) b Q B) as (t' & -> & C1 & C2).
    exists t'. split; [done|]. simpl in *. split; [done|lia].
Qed.

(** After a served run every row of the file is blocked in the table. *)
Lemma importRun_blocks u b :
  replies b = [] →
  replies (importRun u b).2 = []
  ∧ Forall (blocked (selectedSchool u) (students (importRun u b).2))
           (importData u).
Proof.
  intros Q. unfold importRun, bind. rewrite (getUser_served b Q).
  pose proof (importLoop_quiet (selectedSchool u) (importData u) 0 tally0 b Q)
    as Q1.
  destruct (importLoop_blocks (selectedSchool u) (importData u) 0 tally0 b Q)
    as [B _].
  destruct (importLoop_effect (selectedSchool u) (importData u) 0 tally0 b)
    as (t & b1 & E & _).
  unfold tally0 in *. rewrite E in *. simpl in Q1, B.
  destruct (user b); [|done].
  by rewrite insert_import_log_served.
Qed.

Lemma blocked_run_fails u b :
  replies b = [] →
  Forall (blocked (selectedSchool u) (students b)) (importData u) →
  ∃ t b', importRun u b = (Value t, b') ∧ students b' = students b
          ∧ successfulRecords t = 0
          ∧ failedRecords t = length (importData u).
Proof.
  intros Q B. unfold importRun, bind. rewrite (getUser_served b Q).
  destruct (blocked_loop_fails (selectedSchool u) (importData u) 0
              {| successfulRecords := 0; failedRecords := 0;
                 errorsSoFar := [] |} b Q B) as (t & -> & C1 & C2).
  simpl in C1, C2. destruct (user b).
  - rewrite insert_import_log_served by done.
    eexists _, _. split; [done|]. by repeat split.
  - eexists _, _. split; [done|]. by repeat split.
Qed.

End SecondImport.

(** X4. Importing the same rows into the same school a second time, with
    every call served both times, inserts nothing: the table stays as the
    first run left it and the second outcome counts every row as failed. *)
Theorem second_import_inserts_nothing `{JsDate} (u : ui_state) (b : backend) :
  selectedSchool u ≠ "" → importData u ≠ [] → replies b = [] →
  students (importStudents (importStudents u b).1 (importStudents u b).2).2
  = students (importStudents u b).2
  ∧ ∃ o, results (importStudents (importStudents u b).1
                    (importStudents u b).2).1 = Some o
         ∧ total o = length (importData u) ∧ successful o = 0
         ∧ failed o = length (importData u).
Proof.
  intros E1 E2 Q.
  destruct (importRun_blocks u b Q) as [Q1 B].
  destruct (importStudents_started u b E1 E2) as (r & b1 & R & _ & Eb & Ro).
  rewrite R in Q1, B. simpl in Q1, B. rewrite Eb.
  set (u1 := (importStudents u b).1) in *.
  assert (F : selectedSchool u1 = selectedSchool u
              ∧ importData u1 = importData u).
  { subst u1. destruct (importRun_served u b Q) as (t & b0 & R0).
    unfold importStudents. apply String.eqb_neq in E1 as ->.
    destruct (importData u) as [|r0 rows] eqn:D; [done|].
    change (length (r0 :: rows) =? 0)%nat with false. cbv iota.
    change (importRun (setResults None u) b) with (importRun u b).
    rewrite R0. by repeat case_match. }
  destruct F as [F1 F2].
  destruct (blocked_run_fails u1 b1 Q1) as (t2 & b2 & R2 & S2 & C1 & C2).
  { by rewrite F1, F2. }
  destruct (importStudents_started u1 b1) as (r' & b' & R' & _ & Eb' & Ro');
    [by rewrite F1|by rewrite F2|].
  rewrite R2 in R'. injection R' as <- <-.
  split; [by rewrite Eb'|].
  exists (outcome_of u1 t2). split; [done|]. unfold outcome_of. simpl.
  by rewrite C1, C2, F2.
Qed.

Lemma second_import_inserts_nothing_witness :
  ∃ o, results (importStudents (H := sample_dates)
                  (importStudents (H := sample_dates) three_rows
                     (empty_backend (Some "user-1"))).1
                  (importStudents (H := sample_dates) three_rows
                     (empty_backend (Some "user-1"))).2).1 = Some o
       ∧ total o = 3 ∧ successful o = 0 ∧ failed o = 3.
Proof.
  apply (proj2 (second_import_inserts_nothing (H := sample_dates) three_rows
                  (empty_backend (Some "user-1"))
                  ltac:(discriminate) ltac:(discriminate) eq_refl)).
Defined.

(** ** When the log cannot be written *)

(** X5. If the insert of the log entry throws after the loop, the run ends
    in the outer [catch]: the form shows the failure toast and no outcome,
    although the students the loop inserted ([successfulRecords] of them)
    are in the table. *)
Theorem failed_log_hides_the_outcome `{JsDate} (u : ui_state) (b b0 b1 : backend)
    (id : string) (t : tally) (m : string) (rest : list reply) :
  selectedSchool u ≠ "" → importData u ≠ [] →
  getUser b = (Value (Some id), b0) →
  importLoop (selectedSchool u) 0 (importData u) tally0 b0 = (Value t, b1) →
  replies b1 = Thrown m :: rest →
  importStudents u b
  = (show (ToastError ("Import process failed: " +:+ m)) (setResults None u),
     set_replies rest b1)
  ∧ ∃ added, students (importStudents u b).2 = students b ++ added
             ∧ length added = successfulRecords t.
Proof.
  intros E1 E2 G L Q.
  assert (R : importRun u b = (Exception m, set_replies rest b1)).
  { unfold importRun, bind. rewrite G. unfold tally0 in L. rewrite L.
    unfold insert_import_log, await, bind, remote. by rewrite Q. }
  assert (E : importStudents u b
              = (show (ToastError ("Import process failed: " +:+ m))
                      (setResults None u), set_replies rest b1)).
  { destruct (importStudents_started u b E1 E2) as (r & b' & R' & _ & Eb & Ro).
    rewrite R in R'. injection R' as <- <-.
    destruct (importStudents u b) as [u' b']. simpl in *. congruence. }
  split; [done|]. rewrite E. simpl.
  apply getUser_effect in G as [(G1 & _) _].
  destruct (importLoop_effect (selectedSchool u) (importData u) 0 tally0 b0)
    as (t' & b' & L' & [_ _ _ _ _ (added & St & Su & _) _]).
  rewrite L in L'. injection L' as <- <-.
  exists added. rewrite St, G1. split; [done|]. simpl in Su. lia.
Qed.

Lemma failed_log_hides_the_outcome_witness :
  results (importStudents (H := sample_dates) one_row log_throws).1 = None
  ∧ map srn_no (students (importStudents (H := sample_dates) one_row
                            log_throws).2) = ["SRN001"].
Proof.
  pose proof (failed_log_hides_the_outcome (H := sample_dates) one_row
                log_throws
                (set_replies [Served; Served; Thrown "connection lost"]
                   (empty_backend (Some "user-1")))
                (importLoop (H := sample_dates) "school-1" 0 (importData one_row)
                   tally0
                   (set_replies [Served; Served; Thrown "connection lost"]
                      (empty_backend (Some "user-1")))).2
                "user-1" (rowImported tally0) "connection lost" []
                ltac:(discriminate) ltac:(discriminate) eq_refl eq_refl eq_refl)
    as [E _].
  rewrite E. split; vm_compute; reflexivity.
Defined.

(** * Properties of what the import form shows and resets *)

(** X6. The list under View errors never has more than eleven lines: all
    the messages when there are at most ten, the first ten and one line
    with the number of the others when there are more; that number and
    ten add up to the number of messages. *)
Theorem error_preview_is_bounded (errors : list string) :
  (length (errorPreview errors) ≤ 11)%nat
  ∧ ((length errors ≤ 10)%nat →
     errorPreview errors = map (λ error, "• " +:+ error) errors)
  ∧ ((10 < length errors)%nat →
     errorPreview errors
     = map (λ error, "• " +:+ error) (take 10 errors)
       ++ ["... and " +:+ pretty (length errors - 10) +:+ " more errors"]
     ∧ length (take 10 errors) + (length errors - 10) = length errors).
Proof.
  unfold errorPreview. split; [|split].
  - rewrite length_app, length_map, length_take.
    generalize (Nat.le_min_l 10 (length errors)).
    generalize (10 `min` length errors). intros n Hn.
    destruct (10 <? length errors)%nat; simpl; lia.
  - intros L. rewrite take_ge by done.
    rewrite (proj2 (Nat.ltb_ge _ _)) by done. by rewrite app_nil_r.
  - intros L. rewrite (proj2 (Nat.ltb_lt _ _)) by done.
    split; [done|]. rewrite length_take.
    rewrite Nat.min_l by lia. lia.
Qed.

(** X7. The Start Import button is enabled exactly when no import is
    running, rows are loaded and a school is chosen; a click on the enabled
    button passes both guards of [importStudents], so the [try] block runs
    and decides what is shown. After Clear, whatever was loaded before, the
    button is disabled and an import would not touch the store. *)
Theorem start_button_matches_the_guards `{JsDate} (importing : bool)
    (u : ui_state) (b : backend) :
  (startDisabled importing u = false
   ↔ importing = false ∧ importData u ≠ [] ∧ selectedSchool u ≠ "")
  ∧ (startDisabled importing u = false →
     (importStudents u b).2 = (importRun u b).2
     ∧ match (importRun u b).1 with
       | Value t => results (importStudents u b).1 = Some (outcome_of u t)
       | Exception m =>
           (importStudents u b).1
           = show (ToastError ("Import process failed: " +:+ m))
                  (setResults None u)
       end)
  ∧ (∀ f, startDisabled importing (clearImport (handleFileSelect f u)) = true
          ∧ (importStudents (clearImport (handleFileSelect f u)) b).2 = b
          ∧ results (clearImport (handleFileSelect f u)) = None
          ∧ selectedSchool (clearImport (handleFileSelect f u))
            = selectedSchool u).
Proof.
  assert (D : startDisabled importing u = false
              ↔ importing = false ∧ importData u ≠ [] ∧ selectedSchool u ≠ "").
  { unfold startDisabled. rewrite !orb_false_iff, Nat.eqb_neq, String.eqb_neq.
    split.
    - intros [[-> L] S]. repeat split; [|done]. intros E. by rewrite E in L.
    - intros (-> & L & S). repeat split; [|done]. by destruct (importData u). }
  split; [done|]. split.
  - intros (_ & E2 & E1)%D.
    destruct (importStudents_started u b E1 E2) as (r & b' & R & _ & Eb & Ro).
    rewrite R. simpl. done.
  - intros f. split; [|split; [|split]].
    + unfold startDisabled, clearImport. simpl. by rewrite orb_true_r.
    + destruct (importStudents_not_started (clearImport (handleFileSelect f u))
                  b (or_intror eq_refl)) as [m ->]. done.
    + done.
    + unfold handleFileSelect. simpl. by repeat case_match.
Qed.

(** ** A file turned down after a file was taken *)

Section StaleRows.
Context `{JsDate}.

Lemma accepted_loads f u :
  accepted f →
  importData (handleFileSelect (Some f) u) = file_rows f
  ∧ selectedSchool (handleFileSelect (Some f) u) = selectedSchool u
  ∧ chosenFile (handleFileSelect (Some f) u) = Some (name f).
Proof.
  intros [N A]. rewrite handleFileSelect_cases.
  assert (C : ∃ wb, content f = Some wb).
  { unfold file_rows in N. destruct (content f); [by eauto|done]. }
  destruct C as [wb ->].
  rewrite bool_decide_eq_false_2 by done.
  rewrite bool_decide_eq_true_2; [done|].
  destruct (List.filter _ requiredColumns) as [|c cs] eqn:E; [done|].
  assert (In c (c :: cs)) as I by by left.
  rewrite <- E in I. apply filter_In in I as [I K].
  rewrite Forall_forall in A. rewrite A in K; [done|]. by apply list_elem_of_In.
Qed.

Lemma turned_down_keeps f u :
  turned_down f →
  importData (handleFileSelect (Some f) u) = importData u
  ∧ selectedSchool (handleFileSelect (Some f) u) = selectedSchool u
  ∧ chosenFile (handleFileSelect (Some f) u) = Some (name f).
Proof.
  intros T. rewrite handleFileSelect_cases.
  destruct (content f) as [wb|] eqn:C; [|done].
  case_bool_decide as N; [done|].
  case_bool_decide as M; [|done]. exfalso.
  destruct T as [T|[T|(col & I & K)]]; [congruence|done|].
  assert (In col (List.filter
                    (λ c, negb (has_key (default ∅ (head (file_rows f))) c))
                    requiredColumns)) as I'.
  { apply filter_In. split; [by apply list_elem_of_In|]. by rewrite K. }
  by rewrite M in I'.
Qed.

(** A served run of a signed-in user appends the entry of its form. *)
Lemma importRun_logs_served u b id :
  user b = Some id → replies b = [] →
  ∃ t b', importRun u b = (Value t, b')
          ∧ import_logs b'
            = import_logs b
              ++ [logEntry u id (length (importData u)) t (clock b)].
Proof.
  intros U Q. unfold importRun, bind. rewrite (getUser_served b Q), U.
  pose proof (importLoop_quiet (selectedSchool u) (importData u) 0 tally0 b Q)
    as Q1.
  destruct (importLoop_effect (selectedSchool u) (importData u) 0 tally0 b)
    as (t & b1 & E & [L1 _ L3 _ _ _ _]).
  unfold tally0 in *. rewrite E in *. simpl in Q1.
  rewrite (insert_import_log_served _ b1 Q1). unfold ret.
  eexists _, _. split; [done|]. simpl. by rewrite L1, L3.
Qed.

End StaleRows.

(** X8. When a file is turned down after another one was taken, the rows
    of the first file stay loaded while the file input holds the second
    file. An import started then, by a signed-in user with every call
    served, processes the rows of the first file and writes a log entry
    with their number under the name of the second file. *)
Theorem rejected_file_keeps_earlier_rows `{JsDate} (fa fb : upload)
    (u : ui_state) (b : backend) (id : string) :
  accepted fa → turned_down fb →
  importData (handleFileSelect (Some fb) (handleFileSelect (Some fa) u))
  = file_rows fa
  ∧ chosenFile (handleFileSelect (Some fb) (handleFileSelect (Some fa) u))
    = Some (name fb)
  ∧ (selectedSchool u ≠ "" → user b = Some id → replies b = [] →
     ∃ entry,
       import_logs
         (importStudents
            (handleFileSelect (Some fb) (handleFileSelect (Some fa) u)) b).2
       = import_logs b ++ [entry]
       ∧ total_records entry = length (file_rows fa)
       ∧ filename entry = filename_or_unknown (Some (name fb))).
Proof.
  intros A T.
  destruct (accepted_loads fa u A) as (A1 & A2 & _).
  destruct (turned_down_keeps fb (handleFileSelect (Some fa) u) T)
    as (T1 & T2 & T3).
  set (u' := handleFileSelect (Some fb) (handleFileSelect (Some fa) u)) in *.
  rewrite A1 in T1. rewrite A2 in T2.
  split; [done|]. split; [done|].
  intros E1 U Q.
  destruct (importRun_logs_served u' b id U Q) as (t & b' & R & L).
  destruct (importStudents_started u' b) as (r & b2 & R' & _ & Eb & _).
  { by rewrite T2. }
  { rewrite T1. by destruct A. }
  rewrite R in R'. injection R' as <- <-. rewrite Eb, L.
  eexists. split; [done|]. simpl. by rewrite T1, T3.
Qed.

Lemma rejected_file_keeps_earlier_rows_witness :
  length (importData (handleFileSelect (Some sheet_without_rows)
                        (handleFileSelect (Some good_file)
                           (fresh_ui "school-1")))) = 1
  ∧ chosenFile (handleFileSelect (Some sheet_without_rows)
                  (handleFileSelect (Some good_file) (fresh_ui "school-1")))
    = Some "empty.xlsx".
Proof.
  assert (A : accepted good_file).
  { split; [vm_compute; discriminate|]. vm_compute. repeat constructor. }
  assert (T : turned_down sheet_without_rows) by (right; left; reflexivity).
  destruct (rejected_file_keeps_earlier_rows (H := sample_dates) good_file
              sheet_without_rows (fresh_ui "school-1")
              (empty_backend (Some "user-1")) "user-1" A T) as (E1 & E2 & _).
  split; [by rewrite E1|exact E2].
Defined.

(** ** The template *)



(** * Properties of the dashboards *)

(** ** The exports as input of the importer *)

Section ExportsLoad.
Context `{JsDate}.

Lemma exported_row_carries p s : carries s (exported_row p s).
Proof. apply exported_row_cells. Qed.

Lemma exported_row_admin_carries sp : carries sp.1 (exported_row_admin sp).
Proof.
  unfold exported_row_admin, carries.
  destruct sp as [s [[a|] [c|] [d|] [e|]]]; repeat split; reflexivity.
Qed.

Lemma exported_rows_admin_body l :
  omap (λ cells, match row_pairs admin_labels cells with
                 | [] => None
                 | kvs => Some (list_to_map kvs : row)
                 end)
       (map (λ o, map (obj_get o) admin_labels) (map admin_record l))
  = map exported_row_admin l.
Proof.
  induction l as [|sp l IH]; [done|].
  change (map admin_record (sp :: l)) with (admin_record sp :: map admin_record l).
  change (map exported_row_admin (sp :: l))
    with (exported_row_admin sp :: map exported_row_admin l).
  rewrite <- IH. clear IH. unfold exported_row_admin.
  destruct sp as [s [[a|] [c|] [d|] [e|]]]; reflexivity.
Qed.

Lemma exported_rows_admin l :
  sheet_to_json (Some (json_to_sheet (map admin_record l)))
  = map exported_row_admin l.
Proof.
  destruct l as [|sp l]; [done|].
  unfold sheet_to_json, json_to_sheet. cbn [headers body].
  rewrite admin_header. apply exported_rows_admin_body.
Qed.

Lemma carries_keys s r col :
  carries s r → col ∈ requiredColumns → has_key r col = true.
Proof.
  intros (E1 & E2 & E3 & E4 & E5). unfold requiredColumns, has_key.
  intros I. apply bool_decide_eq_true_2.
  repeat (apply elem_of_cons in I as [->|I]; [eauto|]).
  by apply elem_of_nil in I.
Qed.

(** A file whose rows carry students is taken, rows and all. *)
Lemma carrying_file_loads f (l : list student) (rows : list row) u :
  file_rows f = rows → l ≠ [] → Forall2 carries l rows →
  Forall2 carries l (importData (handleFileSelect (Some f) u)).
Proof.
  intros R N C.
  assert (A : accepted f).
  { unfold accepted. rewrite R.
    destruct C as [|s r l' rows' Cs C]; [done|].
    split; [done|]. apply Forall_forall. intros col I. simpl.
    by apply (carries_keys s). }
  destruct (accepted_loads f u A) as (-> & _). by rewrite R.
Qed.

End ExportsLoad.

(** X10. A workbook written by either dashboard for at least one student
    is taken by the loader of the import form: one row per exported
    student is loaded, in the same order, and it carries the name, SRN,
    class, section and date of birth of the student as stored. *)
Theorem exports_are_loadable `{JsDate} (p : userProfile) (today : string)
    (s : student) (l : list student) (sp : student * place)
    (lp : list (student * place)) (u : ui_state) :
  Forall2 carries (s :: l)
    (importData
       (handleFileSelect
          (Some {| name := (exportToExcel p today (s :: l)).1;
                   content := Some (exportToExcel p today (s :: l)).2 |}) u))
  ∧ Forall2 carries (map fst (sp :: lp))
      (importData
         (handleFileSelect
            (Some {| name := (exportToExcel_admin today (sp :: lp)).1;
                     content := Some (exportToExcel_admin today (sp :: lp)).2 |})
            u)).
Proof.
  split.
  - apply (carrying_file_loads _ (s :: l) (map (exported_row p) (s :: l)));
      [apply exported_rows|done|].
    apply Forall2_fmap_r, Forall_Forall2_diag, Forall_forall.
    intros s' _. apply exported_row_carries.
  - apply (carrying_file_loads _ (map fst (sp :: lp))
             (map exported_row_admin (sp :: lp)));
      [apply exported_rows_admin|done|].
    apply Forall2_fmap, Forall_Forall2_diag, Forall_forall.
    intros sp' _. apply exported_row_admin_carries.
Qed.

(** ** The check of the form and the check of the importer *)

Lemma unique_matches_once srnNo sch l :
  srn_unique l → matching srnNo sch l = [] ∨ ∃ s, matching srnNo sch l = [s].
Proof.
  unfold srn_unique, matching. induction l as [|s l IH]; [by left|].
  rewrite fmap_cons, NoDup_cons. intros [N U].
  destruct (decide (srn_no s = srnNo ∧ school_id s = sch)) as [M|M].
  - right. exists s. rewrite filter_cons_True by done. f_equal.
    destruct (filter _ l) as [|s' l'] eqn:F; [done|]. exfalso. apply N.
    assert (I : s' ∈ filter (λ s0, srn_no s0 = srnNo ∧ school_id s0 = sch) l)
      by (rewrite F; left).
    apply list_elem_of_filter in I as [[I1 I2] I].
    apply list_elem_of_fmap. exists s'. split; [|done].
    unfold key. destruct M as [<- <-]. by rewrite I1, I2.
  - rewrite filter_cons_False by done. by apply IH.
Qed.

(** X11. The uniqueness check of the student form makes no lookup when the
    SRN is empty or is the one of the student being edited. Otherwise, on a
    table that keeps SRNs unique within a school, it answers like the check
    of the importer whenever the lookup is served or throws, and the two
    part when the lookup answers with an error: the form lets the
    submission through, the importer turns the row down. *)
Theorem form_check_and_import_check (editing : option string)
    (sch srn : string) (b : backend) :
  (srn = "" ∨ editing = Some srn →
   validateSRN_form editing sch srn b = (Value true, b))
  ∧ (srn ≠ "" → editing ≠ Some srn → srn_unique (students b) →
     match replies b with
     | Refused _ :: rest =>
         validateSRN_form editing sch srn b = (Value true, set_replies rest b)
         ∧ validateSRN srn sch b = (Value false, set_replies rest b)
     | _ => validateSRN_form editing sch srn b = validateSRN srn sch b
     end).
Proof.
  unfold validateSRN_form. split.
  - intros [-> | ->]; [done|].
    rewrite bool_decide_eq_true_2 by done. by rewrite orb_true_r.
  - intros N1 N2 U. apply String.eqb_neq in N1 as ->.
    rewrite bool_decide_eq_false_2 by done. simpl.
    unfold validateSRN, select_student, await, bind, remote.
    destruct (unique_matches_once srn sch (students b) U) as [M|[s M]];
      unfold matching in M;
      destruct (replies b) as [|[] rest]; simpl; by rewrite ?M.
Qed.

Lemma form_check_and_import_check_witness :
  validateSRN_form None "school-1" "SRN001"
    (set_replies [Refused "timeout"] blank_name_store)
  = (Value true, blank_name_store)
  ∧ validateSRN "SRN001" "school-1"
      (set_replies [Refused "timeout"] blank_name_store)
    = (Value false, blank_name_store).
Proof.
  apply (proj2 (form_check_and_import_check None "school-1" "SRN001"
                  (set_replies [Refused "timeout"] blank_name_store))).
  - discriminate.
  - discriminate.
  - unfold srn_unique. apply (bool_decide_unpack _). vm_compute. exact I.
Defined.

(** ** The school dashboard *)

Lemma jpg_is_not_no_photo srn : srn +:+ ".jpg" ≠ "No photo".
Proof.
  intros E. apply (f_equal String.rev) in E. rewrite rev_append in E.
  change (String.rev ".jpg") with "gpj." in E.
  change (String.rev "No photo") with "otohp oN" in E.
  rewrite !append_cons in E. discriminate.
Qed.

(** X12. The cards of the school dashboard: the students with a photo and
    the classes are never more than the students listed, a non-empty list
    has at least one class, and the Export button is enabled exactly when
    a student is listed. In the export, the rows whose photo file name is
    [No photo] are the listed students that the photo card does not
    count. *)
Theorem school_cards_and_export_agree `{JsDate} (p : userProfile)
    (l : list student) :
  (studentsWithPhotos l ≤ length l)%nat
  ∧ (size (uniqueClasses l) ≤ length l)%nat
  ∧ (l ≠ [] → (1 ≤ size (uniqueClasses l))%nat)
  ∧ (exportDisabled l = false ↔ l ≠ [])
  ∧ length (withoutPhoto p l) + studentsWithPhotos l = length l.
Proof.
  split; [|split; [|split; [|split]]].
  - unfold studentsWithPhotos. apply filter_length_le.
  - unfold uniqueClasses. induction l as [|s l IH].
    + change (list_to_set (map class [])) with (∅ : gset string).
      by rewrite size_empty.
    + change (map class (s :: l)) with (class s :: map class l).
      rewrite list_to_set_cons, size_union_alt, size_singleton.
      assert (size (list_to_set (map class l) ∖ {[class s]} : gset string)
              ≤ size (list_to_set (map class l) : gset string))%nat
        by (apply subseteq_size, subseteq_difference_l; reflexivity).
      simpl. lia.
  - intros N. destruct l as [|s l]; [done|]. unfold uniqueClasses.
    change (map class (s :: l)) with (class s :: map class l).
    rewrite list_to_set_cons, size_union_alt, size_singleton. lia.
  - unfold exportDisabled. rewrite Nat.eqb_neq. by destruct l.
  - unfold withoutPhoto, studentsWithPhotos.
    induction l as [|s l IH]; [done|]. simpl.
    destruct (nonempty (photo_url s)) eqn:P; simpl.
    + rewrite bool_decide_eq_false_2; [simpl; lia|].
      unfold obj_get. simpl. rewrite P. intros [= E].
      by apply jpg_is_not_no_photo in E.
    + rewrite bool_decide_eq_true_2; [simpl; lia|].
      unfold obj_get. simpl. by rewrite P.
Qed.

(** X13. [fetchStudents] of the school dashboard. Without a school in the
    profile it does nothing. With one, a served query lists exactly the
    students of that school, each once per row of the table, and leaves
    the store alone; a query answered with an error keeps the list and
    shows a toast. *)
Theorem school_fetch_lists_own_students `{Tables} (p : userProfile)
    (d : school_dashboard) (b : backend) (sch : string) :
  (nonempty (profile_school_id p) = false →
   fetchStudents p d b = (Value d, b))
  ∧ (profile_school_id p = Some sch → sch ≠ "" →
     (replies b = [] →
      ∃ d', fetchStudents p d b = (Value d', b)
            ∧ listed d' ≡ₚ filter (λ s, school_id s = sch) (students b)
            ∧ listed d' ⊆ students b
            ∧ Forall (λ s, school_id s = sch) (listed d')
            ∧ school_toasts d' = school_toasts d)
     ∧ (∀ m rest, replies b = Refused m :: rest →
        fetchStudents p d b
        = (Value {| listed := listed d;
                    school_toasts := school_toasts d
                                     ++ [ToastError "Error fetching students"] |},
           set_replies rest b))).
Proof.
  unfold fetchStudents. split.
  - by intros ->.
  - intros P N. rewrite P. simpl. apply String.eqb_neq in N as ->. simpl.
    unfold await, bind, remote. split.
    + intros ->. simpl. eexists. split; [done|]. simpl.
      assert (E : filter (λ s, Some (school_id s) = Some sch) (students b)
                  = filter (λ s, school_id s = sch) (students b)).
      { apply list_filter_iff. intros s. split; [by intros [= ->]|by intros ->]. }
      rewrite E.
      assert (Pm := newest_first_perm
                      (filter (λ s, school_id s = sch) (students b))).
      split; [done|]. split; [|split; [|done]].
      * intros s In. rewrite Pm in In.
        by apply list_elem_of_filter in In as [_ ?].
      * apply Forall_forall. intros s In. rewrite Pm in In.
        by apply list_elem_of_filter in In as [? _].
    + by intros m rest ->.
Qed.

Lemma school_fetch_lists_own_students_witness :
  ∃ d', fetchStudents (H := sample_tables) school_one
          {| listed := []; school_toasts := [] |} blank_name_store
        = (Value d', blank_name_store)
        ∧ Forall (λ s, school_id s = "school-1") (listed d').
Proof.
  destruct (proj1 (proj2 (school_fetch_lists_own_students (H := sample_tables)
                            school_one {| listed := []; school_toasts := [] |}
                            blank_name_store "school-1")
                     eq_refl ltac:(discriminate)) eq_refl)
    as (d' & E & _ & _ & A & _).
  by exists d'.
Defined.

(** ** The admin dashboard *)

Lemma setFilters_nested e f : nested f → nested (setFilters e f).
Proof.
  unfold nested. intros (N1 & N2 & N3).
  destruct e; simpl; try done;
    try (destruct (String.eqb _ "") eqn:E; simpl; [done|];
         apply String.eqb_neq in E); by repeat split.
Qed.

(** X14. Whatever is done with the controls above the table of the admin
    dashboard, starting from no filter: a school is only ever chosen while
    a block is, a block while a district is, a district while a state
    is. *)
Theorem admin_filters_stay_nested (events : list filter_event) :
  nested (foldl (λ f e, setFilters e f) noFilters events).
Proof.
  assert (G : ∀ f, nested f → nested (foldl (λ f e, setFilters e f) f events)).
  { induction events as [|e events IH]; intros f N; simpl; [done|].
    by apply IH, setFilters_nested. }
  apply G. by repeat split.
Qed.

(** X15. [fetchStudents] of the admin dashboard, when the query is served:
    the list shows at most 100 students, namely the first 100 (or all) of
    the students that pass the search term and the school, class and
    section filters, each with its joined names; the state, district and
    block filters do not enter the query. The workbook exported from the
    list has as many data rows, so never more than 100. *)
Theorem admin_list_is_capped_and_filtered `{JsDate} `{Tables}
    (d : admin_dashboard) (b : backend) (today : string) :
  replies b = [] →
  ∃ d', fetchStudents_admin d b = (Value d', b)
        ∧ length (shown d')
          = 100 `min` length (List.filter (selected (searchTerm d) (chosen d))
                                          (students b))
        ∧ Forall (λ sp, sp.1 ∈ students b
                        ∧ selected (searchTerm d) (chosen d) sp.1 = true
                        ∧ sp.2 = joined sp.1) (shown d')
        ∧ (filter_school (chosen d) ≠ "" →
           Forall (λ sp, school_id sp.1 = filter_school (chosen d)) (shown d'))
        ∧ (∀ f', filter_school f' = filter_school (chosen d) →
                 filter_class f' = filter_class (chosen d) →
                 filter_section f' = filter_section (chosen d) →
                 fetchStudents_admin
                   {| searchTerm := searchTerm d; chosen := f';
                      shown := shown d; admin_toasts := admin_toasts d |} b
                 = (Value {| searchTerm := searchTerm d; chosen := f';
                             shown := shown d';
                             admin_toasts := admin_toasts d |}, b))
        ∧ ∃ ws, (exportToExcel_admin today (shown d')).2 = [("Students", ws)]
                ∧ length (body ws) = length (shown d')
                ∧ (length (body ws) ≤ 100)%nat.
Proof.
  intros Q. unfold fetchStudents_admin, await, bind, remote. rewrite Q. simpl.
  eexists. split; [done|]. simpl.
  set (hits := List.filter (selected (searchTerm d) (chosen d)) (students b)).
  assert (L : length (take 100 (map (λ s, (s, joined s)) (newest_first hits)))
              = 100 `min` length hits).
  { by rewrite length_take, length_map, (newest_first_perm hits). }
  assert (A : Forall (λ sp, sp.1 ∈ students b
                            ∧ selected (searchTerm d) (chosen d) sp.1 = true
                            ∧ sp.2 = joined sp.1)
                     (take 100 (map (λ s, (s, joined s)) (newest_first hits)))).
  { apply Forall_forall. intros sp In. apply subseteq_take in In.
    apply list_elem_of_fmap in In as (s & -> & In).
    rewrite (newest_first_perm hits) in In.
    apply list_elem_of_In, filter_In in In as [In S].
    by apply list_elem_of_In in In. }
  split; [done|]. split; [done|]. split; [|split].
  - intros N. eapply Forall_impl; [exact A|]. intros sp (_ & S & _).
    unfold selected in S. apply String.eqb_neq in N. rewrite N in S.
    simpl in S. rewrite !andb_true_iff in S. destruct S as [[[_ S] _] _].
    by apply String.eqb_eq in S.
  - intros f' E1 E2 E3.
    assert (E : selected (searchTerm d) f' = selected (searchTerm d) (chosen d)).
    { unfold selected. by rewrite E1, E2, E3. }
    by rewrite E.
  - eexists. split; [reflexivity|]. cbn [json_to_sheet body].
    rewrite !length_map. split; [done|]. rewrite L. lia.
Qed.

Lemma admin_list_is_capped_and_filtered_witness :
  ∃ d', fetchStudents_admin (H := sample_tables)
          {| searchTerm := ""; chosen := noFilters; shown := [];
             admin_toasts := [] |} blank_name_store
        = (Value d', blank_name_store)
        ∧ length (shown d') = 2.
Proof.
  destruct (admin_list_is_capped_and_filtered (H := sample_dates)
              (H0 := sample_tables)
              {| searchTerm := ""; chosen := noFilters; shown := [];
                 admin_toasts := [] |} blank_name_store "2025-09-06" eq_refl)
    as (d' & E & L & _).
  exists d'. split; [exact E|]. rewrite L. vm_compute. reflexivity.
Defined.

(** * How many calls an import makes *)

(** Every awaited call takes the next reply of the backend. *)
Lemma remote_takes_one b r b' :
  remote b = (r, b') → replies b' = drop 1 (replies b).
Proof.
  unfold remote. destruct (replies b) eqn:E; intros [= <- <-]; [|done].
  by rewrite E.
Qed.

Lemma validateSRN_takes_one srnNo sch b r b' :
  validateSRN srnNo sch b = (r, b') → replies b' = drop 1 (replies b).
Proof.
  unfold validateSRN, select_student, await, bind.
  destruct (remote b) as [[x|e] b1] eqn:E; apply remote_takes_one in E;
    [|by intros [= <- <-]].
  destruct x; simpl; [|by intros [= <- <-]..].
  destruct (maybeSingle _); by intros [= <- <-].
Qed.

Lemma insert_student_takes_one s b r b' :
  insert_student s b = (r, b') → replies b' = drop 1 (replies b).
Proof.
  unfold insert_student, await, bind.
  destruct (remote b) as [[x|e] b1] eqn:E; apply remote_takes_one in E;
    [|by intros [= <- <-]].
  destruct x; simpl; [|by intros [= <- <-]..].
  destruct (key_taken _ _); by intros [= <- <-].
Qed.

Lemma getUser_takes_one b r b' :
  getUser b = (r, b') → replies b' = drop 1 (replies b).
Proof.
  unfold getUser, bind.
  destruct (remote b) as [[x|e] b1] eqn:E; apply remote_takes_one in E;
    [|by intros [= <- <-]].
  destruct x; by intros [= <- <-].
Qed.

Lemma insert_import_log_takes_one entry b r b' :
  insert_import_log entry b = (r, b') → replies b' = drop 1 (replies b).
Proof.
  unfold insert_import_log, await, bind.
  destruct (remote b) as [[x|e] b1] eqn:E; apply remote_takes_one in E;
    [|by intros [= <- <-]].
  destruct x; by intros [= <- <-].
Qed.

Section Calls.
Context `{JsDate}.

(** A row makes no call when a required cell is missing, and otherwise the
    lookup and at most the insert. *)
Lemma importRow_calls sch i r t b :
  ∃ k, (k ≤ 2)%nat ∧ (filled r = false → k = 0)
       ∧ replies (importRow sch i r t b).2 = drop k (replies b).
Proof.
  destruct (filled r) eqn:F.
  - rewrite importRow_filled by done.
    destruct (validateSRN _ sch b) as [[[]|m] b1] eqn:V;
      apply validateSRN_takes_one in V;
      try (exists 1; split; [lia|]; split; [congruence|]; done).
    destruct (_ ≫= dateOfBirth) as [dob|];
      [|exists 1; split; [lia|]; split; [congruence|]; done].
    destruct (insert_student _ b1) as [x b2] eqn:I.
    apply insert_student_takes_one in I.
    exists 2. split; [lia|]. split; [congruence|].
    assert (E : replies b2 = drop 2 (replies b)).
    { by rewrite I, V, drop_drop. }
    by destruct x as [[[]|m]|m].
  - rewrite importRow_unfilled by done. exists 0. split; [lia|]. by split.
Qed.

Lemma importLoop_calls sch rows : ∀ i t b,
  ∃ k, (k ≤ 2 * length rows)%nat
       ∧ replies (importLoop sch i rows t b).2 = drop k (replies b).
Proof.
  induction rows as [|r rows IH]; intros i t b; simpl.
  - exists 0. split; [lia|done].
  - unfold bind.
    destruct (importRow_calls sch i r t b) as (k1 & L1 & _ & E1).
    destruct (importRow_effect sch i r t b) as (t1 & b1 & E & _).
    rewrite E in *. simpl in E1.
    destruct (IH (S i) t1 b1) as (k2 & L2 & E2).
    exists (k1 + k2). split; [lia|]. by rewrite E2, E1, drop_drop.
Qed.

End Calls.

(** X16. An import of n loaded rows makes at most 2n + 2 calls to the
    backend (the user, per row the lookup and the insert, the log), and
    none when it does not start. *)
Theorem import_makes_few_calls `{JsDate} (u : ui_state) (b : backend) :
  ∃ k, (k ≤ 2 * length (importData u) + 2)%nat
       ∧ replies (importStudents u b).2 = drop k (replies b)
       ∧ (selectedSchool u = "" ∨ importData u = [] → k = 0).
Proof.
  destruct (decide (selectedSchool u = "")) as [E1|E1];
    [|destruct (decide (importData u = [])) as [E2|E2]].
  - destruct (importStudents_not_started u b (or_introl E1)) as [m ->].
    exists 0. split; [lia|]. by split.
  - destruct (importStudents_not_started u b (or_intror E2)) as [m ->].
    exists 0. split; [lia|]. by split.
  - destruct (importStudents_started u b E1 E2) as (r & b' & R & _ & -> & _).
    assert (K : ∃ k, (k ≤ 2 * length (importData u) + 2)%nat
                     ∧ replies b' = drop k (replies b)).
    { revert R. unfold importRun, bind.
      destruct (getUser b) as [[who|m] b0] eqn:G;
        apply getUser_takes_one in G;
        [|intros [= <- <-]; exists 1; split; [lia|done]].
      destruct (importLoop_calls (selectedSchool u) (importData u) 0
                  {| successfulRecords := 0; failedRecords := 0;
                     errorsSoFar := [] |} b0) as (k & L & E).
      destruct (importLoop_effect (selectedSchool u) (importData u) 0 tally0 b0)
        as (t & b1 & El & _).
      unfold tally0 in El. rewrite El in *. simpl in E.
      destruct who as [id|].
      - destruct (insert_import_log _ b1) as [[x|e] b2] eqn:I;
          apply insert_import_log_takes_one in I; intros [= <- <-];
          exists (1 + k + 1); (split; [lia|]);
          by rewrite I, E, G, !drop_drop.
      - intros [= <- <-]. exists (1 + k). split; [lia|].
        by rewrite E, G, drop_drop. }
    destruct K as (k & L & E). exists k. split; [done|]. split; [done|].
    intros [?|?]; done.
Qed.
